(** * Shift-assignment conflict engine of dash-backend

  A shallow embedding of [src/controller/shiftAssignController.js]: the
  Prisma store is an explicit value threaded through every handler, each
  handler returns the HTTP response it sends together with the store it
  leaves behind.

  Conventions of the embedding.
  - A JS [Date] is its time value, an integer number of milliseconds ([Z]).
  - A [BigInt] identifier is a [Z]; identifiers arrive in the request as
    JSON integers, whose [toString()] is the plain decimal spelling, so
    that [BigInt(id).toString()] and [id.toString()] coincide.
  - A request field that JavaScript tests for truthiness is an [option]:
    [None] stands for an absent, [null] or empty value; the number [0] is
    falsy as well.
  - [new Date()] is the argument [now] of a handler.
  - Inputs on which [BigInt(...)] throws or [new Date(...)] is invalid are
    outside the embedding; the [catch] branch is reached only where
    [update] finds no row.

  Besides the conflict engine the file embeds the routes that write
  ([Routes]), [formatTimeFromDatabase] ([Time]), the pagination helpers
  ([Pagination]), the by-shift listing ([Listing]) and
  serviceRequestController.js ([ServiceRequest]). *)

From Stdlib Require Import ZArith List String Ascii Bool Lia.
From Stdlib Require Import DecimalString DecimalPos DecimalZ.
From Stdlib Require Import Permutation.
Import ListNotations.
Local Open Scope Z_scope.

(* ------------------------------------------------------------------ *)
(** ** JSON values and HTTP responses *)

Module Json.

#[local] Unset Elimination Schemes.
Inductive t : Type :=
| Null
| Num (n : Z)
| Str (s : string)
| Date (ms : Z)
| Arr (items : list t)
| Obj (fields : list (string * t)).
#[local] Set Elimination Schemes.

Fixpoint assoc (k : string) (fs : list (string * t)) : option t :=
  match fs with
  | [] => None
  | (k', v) :: fs' => if String.eqb k k' then Some v else assoc k fs'
  end.

(** Property access [j.k]; [None] is [undefined]. *)
Definition get (k : string) (j : t) : option t :=
  match j with
  | Obj fs => assoc k fs
  | _ => None
  end.

(** The keys of an object, in order: its shape. *)
Definition keys (j : t) : list string :=
  match j with
  | Obj fs => map fst fs
  | _ => []
  end.

Definition of_option {A} (f : A -> t) (o : option A) : t :=
  match o with
  | Some a => f a
  | None => Null
  end.

End Json.

(** [res.status(code).json(body)] *)
Record response : Type := Response { code : Z; body : Json.t }.

(** [BigInt.prototype.toString] and [Number.prototype.toString] on an
  integer: the decimal spelling, with a leading [-] when negative. *)
Definition toString (z : Z) : string := NilZero.string_of_int (Z.to_int z).

(* ------------------------------------------------------------------ *)
(** ** The store *)

(** Modelled from the spec: the Prisma schema is not part of the sources;
  the columns are those the controller reads and writes, with the types of
  the data model ([endDate], [notes] and [deleted_at] nullable, [id]
  generated by the store, [createdAt] set by the store on insertion). *)
Module Row.
Record t : Type := Make {
  id : Z;
  shiftId : Z;
  user_id : Z;
  role_id : Z;
  startDate : Z;
  endDate : option Z;
  status : string;
  notes : option string;
  deleted_at : option Z;
  createdAt : Z
}.

(** The [data] argument of [createMany]: the columns the controller
    supplies. *)
Record input : Type := Input {
  in_shiftId : Z;
  in_user_id : Z;
  in_startDate : Z;
  in_endDate : option Z;
  in_role_id : Z;
  in_notes : option string;
  in_status : string
}.

(** The [data] argument of [update]: a column left [None] is not
    written. *)
Record data : Type := Data {
  set_startDate : option Z;
  set_endDate : option (option Z);
  set_status : option string;
  set_notes : option (option string);
  set_role_id : option Z;
  set_deleted_at : option (option Z)
}.

Definition or_keep {A} (o : option A) (old : A) : A :=
  match o with
  | Some v => v
  | None => old
  end.

Definition apply (p : data) (a : t) : t :=
  {| id := id a;
     shiftId := shiftId a;
     user_id := user_id a;
     role_id := or_keep (set_role_id p) (role_id a);
     startDate := or_keep (set_startDate p) (startDate a);
     endDate := or_keep (set_endDate p) (endDate a);
     status := or_keep (set_status p) (status a);
     notes := or_keep (set_notes p) (notes a);
     deleted_at := or_keep (set_deleted_at p) (deleted_at a);
     createdAt := createdAt a |}.

Definition insert (fresh now : Z) (x : input) : t :=
  {| id := fresh;
     shiftId := in_shiftId x;
     user_id := in_user_id x;
     role_id := in_role_id x;
     startDate := in_startDate x;
     endDate := in_endDate x;
     status := in_status x;
     notes := in_notes x;
     deleted_at := None;
     createdAt := now |}.

(** The record as the handlers send it: [{...row, id: row.id.toString(),
    shiftId: row.shiftId.toString(), user_id: row.user_id.toString()}]. *)
Definition to_json (a : t) : Json.t :=
  Json.Obj
    [ ("id", Json.Str (toString (id a)));
      ("shiftId", Json.Str (toString (shiftId a)));
      ("user_id", Json.Str (toString (user_id a)));
      ("role_id", Json.Num (role_id a));
      ("startDate", Json.Date (startDate a));
      ("endDate", Json.of_option Json.Date (endDate a));
      ("status", Json.Str (status a));
      ("notes", Json.of_option Json.Str (notes a));
      ("deleted_at", Json.of_option Json.Date (deleted_at a));
      ("createdAt", Json.Date (createdAt a)) ]%string.
End Row.

Module ShiftRow.
Record t : Type := Make {
  id : Z;
  company_id : Z;
  deleted_at : option Z
}.
End ShiftRow.

Module Prisma.

(** [next_id] is the state of the identity sequence of
    [shift_assignments]. *)
Record db : Type := Db {
  shifts : list ShiftRow.t;
  shift_assignments : list Row.t;
  next_id : Z
}.

Definition is_null {A} (o : option A) : bool :=
  match o with
  | None => true
  | Some _ => false
  end.

(** [{ in: xs }] *)
Definition isin (x : Z) (xs : list Z) : bool := existsb (Z.eqb x) xs.

(** [{ lte: bound }] on a non-null column. *)
Definition lte (col bound : Z) : bool := col <=? bound.

(** [{ gte: bound }] on a nullable column: a null never satisfies a
    comparison. *)
Definition gte_nullable (col : option Z) (bound : Z) : bool :=
  match col with
  | Some v => bound <=? v
  | None => false
  end.

Definition findMany {A} (where_ : A -> bool) (table : list A) : list A :=
  filter where_ table.

Definition findFirst {A} (where_ : A -> bool) (table : list A) : option A :=
  find where_ table.

Fixpoint insert_from (fresh now : Z) (rows : list Row.input) : list Row.t :=
  match rows with
  | [] => []
  | x :: rows' => Row.insert fresh now x :: insert_from (fresh + 1) now rows'
  end.

(** [shift_assignments.createMany({ data })]: the new store and
    [result.count]. *)
Definition createMany (now : Z) (rows : list Row.input) (d : db) : db * Z :=
  ({| shifts := shifts d;
      shift_assignments :=
        shift_assignments d ++ insert_from (next_id d) now rows;
      next_id := next_id d + Z.of_nat (List.length rows) |},
   Z.of_nat (List.length rows)).

Definition has_id (i : Z) (a : Row.t) : bool := Row.id a =? i.

(** [shift_assignments.update({ where: { id }, data })]: [None] when no
    row has this id (Prisma throws), otherwise the new store and the
    updated row. *)
Definition update (i : Z) (p : Row.data) (d : db) : option (db * Row.t) :=
  match find (has_id i) (shift_assignments d) with
  | None => None
  | Some a =>
      Some ({| shifts := shifts d;
               shift_assignments :=
                 map (fun r => if has_id i r then Row.apply p r else r)
                     (shift_assignments d);
               next_id := next_id d |},
            Row.apply p a)
  end.

End Prisma.

(* ------------------------------------------------------------------ *)
(** ** The controller *)

Module CreateBody.
(** [req.body] of [POST /]. *)
Record t : Type := Make {
  shiftId : option Z;
  user_ids : option (list Z);
  company_id : option Z;
  startDate : option Z;
  endDate : option Z;
  role_id : option Z;
  notes : option string
}.
End CreateBody.

Module UpdateBody.
(** [req.body] of [PUT /:id]. *)
Record t : Type := Make {
  startDate : option Z;
  endDate : option Z;
  status : option string;
  notes : option string;
  role_id : option Z
}.
End UpdateBody.

Module Controller.
Import Prisma.

(** [!x] on a numeric field. *)
Definition falsy (x : option Z) : bool :=
  match x with
  | Some v => v =? 0
  | None => true
  end.

(** [!Array.isArray(xs) || xs.length === 0] *)
Definition no_items (xs : option (list Z)) : bool :=
  match xs with
  | Some (_ :: _) => false
  | _ => true
  end.

(** [new Date("9999-12-31")]: midnight UTC of that day. *)
Definition far_future : Z := 253402214400000.

(** [parsedEnd && parsedEnd < parsedStart] *)
Definition end_before_start (parsedEnd : option Z) (parsedStart : Z) : bool :=
  match parsedEnd with
  | Some e => e <? parsedStart
  | None => false
  end.

Definition active (a : Row.t) : bool := String.eqb (Row.status a) "active".

(** The [OR] of both handlers' overlap query. *)
Definition overlap_where (parsedStart : Z) (parsedEnd : option Z)
    (a : Row.t) : bool :=
  (lte (Row.startDate a) (Row.or_keep parsedEnd far_future)
   && gte_nullable (Row.endDate a) parsedStart)
  || (lte (Row.startDate a) parsedStart && is_null (Row.endDate a)).

Definition error (c : Z) (message : string) : response :=
  Response c (Json.Obj [("status", Json.Str "error");
                        ("message", Json.Str message)]%string).

Definition internal_error : response := error 500 "Internal Server Error".

(** *** createShiftAssignments *)

Definition shift_where (shiftId company_id : Z) (s : ShiftRow.t) : bool :=
  (ShiftRow.id s =? shiftId)
  && (ShiftRow.company_id s =? company_id)
  && is_null (ShiftRow.deleted_at s).

Definition existingSameShift (d : db) (shiftId : Z) (userBigInts : list Z)
  : list Row.t :=
  findMany (fun a => (Row.shiftId a =? shiftId)
                     && isin (Row.user_id a) userBigInts
                     && active a
                     && is_null (Row.deleted_at a))
           (shift_assignments d).

Definition duplicateUserIds (d : db) (shiftId : Z) (userBigInts : list Z)
  : list string :=
  map (fun a => toString (Row.user_id a))
      (existingSameShift d shiftId userBigInts).

Definition overlappingAssignments (d : db) (userBigInts : list Z)
    (parsedStart : Z) (parsedEnd : option Z) : list Row.t :=
  findMany (fun a => isin (Row.user_id a) userBigInts
                     && active a
                     && is_null (Row.deleted_at a)
                     && overlap_where parsedStart parsedEnd a)
           (shift_assignments d).

Definition overlappingUserIds (d : db) (userBigInts : list Z)
    (parsedStart : Z) (parsedEnd : option Z) : list string :=
  map (fun a => toString (Row.user_id a))
      (overlappingAssignments d userBigInts parsedStart parsedEnd).

(** [new Set([...duplicateUserIds, ...overlappingUserIds])]; only [has] is
    ever called on it. *)
Definition blockedUserIds (duplicates overlapping : list string)
  : list string :=
  duplicates ++ overlapping.

Definition has (set : list string) (s : string) : bool :=
  existsb (String.eqb s) set.

Definition usersToAssign (user_ids : list Z) (blocked : list string)
  : list Z :=
  filter (fun id => negb (has blocked (toString id))) user_ids.

(** [notes || null] *)
Definition notes_or_null (notes : option string) : option string :=
  match notes with
  | Some EmptyString => None
  | _ => notes
  end.

Definition assignmentsToCreate (shiftId : Z) (parsedStart : Z)
    (parsedEnd : option Z) (role_id : Z) (notes : option string)
    (users : list Z) : list Row.input :=
  map (fun userId =>
         {| Row.in_shiftId := shiftId;
            Row.in_user_id := userId;
            Row.in_startDate := parsedStart;
            Row.in_endDate := parsedEnd;
            Row.in_role_id := role_id;
            Row.in_notes := notes_or_null notes;
            Row.in_status := "active" |})
      users.

Definition created_message (count skippedCount : Z) : string :=
  let message :=
    String.append (toString count) " shift assignment(s) created successfully." in
  if 0 <? skippedCount
  then String.append message
         (String.append " "
            (String.append (toString skippedCount)
                           " user(s) skipped due to conflict."))
  else message.

Definition strings (l : list string) : Json.t := Json.Arr (map Json.Str l).

Definition missing_fields : response :=
  error 400 "Missing required fields: shiftId, company_id, startDate, role_id, and non-empty user_ids array.".

(** The 400 sent when [usersToAssign] is empty. *)
Definition all_conflict (duplicates overlapping : list string) : response :=
  Response 400
    (Json.Obj
       [("status", Json.Str "error");
        ("message", Json.Str "All selected users either already have this shift or have overlapping active shifts.");
        ("duplicates", strings duplicates);
        ("overlapping", strings overlapping)]%string).

(** The 201 sent after [createMany]. *)
Definition created (count skippedCount : Z)
    (duplicates overlapping : list string) : response :=
  Response 201
    (Json.Obj
       [("status", Json.Str "success");
        ("message", Json.Str (created_message count skippedCount));
        ("data",
         Json.Obj
           [("created", Json.Num count);
            ("skipped", Json.Num skippedCount);
            ("duplicateUserIds", strings duplicates);
            ("overlappingUserIds", strings overlapping)])]%string).

Definition createShiftAssignments (now : Z) (b : CreateBody.t) (d : db)
  : response * db :=
  match CreateBody.shiftId b, CreateBody.company_id b,
        CreateBody.startDate b, CreateBody.role_id b,
        CreateBody.user_ids b with
  | Some shiftId, Some company_id, Some startDate, Some role_id,
    Some user_ids =>
    if falsy (Some shiftId) || falsy (Some company_id)
       || falsy (Some role_id) || no_items (Some user_ids)
    then (missing_fields, d)
    else
      let parsedStart := startDate in
      let parsedEnd := CreateBody.endDate b in
      if end_before_start parsedEnd parsedStart
      then (error 400 "endDate cannot be before startDate.", d)
      else
        match findFirst (shift_where shiftId company_id) (shifts d) with
        | None => (error 404 "Shift not found for this company.", d)
        | Some _ =>
          let userBigInts := user_ids in
          let duplicates := duplicateUserIds d shiftId userBigInts in
          let overlapping :=
            overlappingUserIds d userBigInts parsedStart parsedEnd in
          let blocked := blockedUserIds duplicates overlapping in
          let users := usersToAssign user_ids blocked in
          match users with
          | [] => (all_conflict duplicates overlapping, d)
          | _ :: _ =>
            let (d', count) :=
              createMany now
                (assignmentsToCreate shiftId parsedStart parsedEnd role_id
                                     (CreateBody.notes b) users)
                d in
            let skippedCount :=
              Z.of_nat (List.length user_ids) - Z.of_nat (List.length users) in
            (created count skippedCount duplicates overlapping, d')
          end
        end
  | _, _, _, _, _ => (missing_fields, d)
  end.

(** *** updateShiftAssignment, toggleShiftAssignmentStatus,
    deleteShiftAssignment

    The route parameter [id] is [None] when it is empty or not a number
    ([!id || isNaN(id)]), otherwise the integer it spells. *)

Definition invalid_id : response := error 400 "Invalid shift assignment ID.".

Definition not_found : response := error 404 "Shift assignment not found.".

(** [findFirst({ where: { id: BigInt(id), deleted_at: null } })] *)
Definition find_assignment (i : Z) (d : db) : option Row.t :=
  findFirst (fun a => has_id i a && is_null (Row.deleted_at a))
            (shift_assignments d).

(** The overlap check of the update, the edited record excluded. *)
Definition overlapping (d : db) (i : Z) (assignment : Row.t)
    (parsedStart : Z) (parsedEnd : option Z) : option Row.t :=
  findFirst (fun a => negb (has_id i a)
                      && (Row.user_id a =? Row.user_id assignment)
                      && active a
                      && is_null (Row.deleted_at a)
                      && overlap_where parsedStart parsedEnd a)
            (shift_assignments d).

Definition parsedStart_of (b : UpdateBody.t) (assignment : Row.t) : Z :=
  Row.or_keep (UpdateBody.startDate b) (Row.startDate assignment).

Definition parsedEnd_of (b : UpdateBody.t) (assignment : Row.t) : option Z :=
  match UpdateBody.endDate b with
  | Some e => Some e
  | None => Row.endDate assignment
  end.

Definition update_data (b : UpdateBody.t) (assignment : Row.t) : Row.data :=
  {| Row.set_startDate := Some (parsedStart_of b assignment);
     Row.set_endDate := Some (parsedEnd_of b assignment);
     Row.set_status :=
       Some (Row.or_keep (UpdateBody.status b) (Row.status assignment));
     Row.set_notes :=
       Some (match UpdateBody.notes b with
             | Some n => Some n
             | None => Row.notes assignment
             end);
     Row.set_role_id :=
       Some (Row.or_keep (UpdateBody.role_id b) (Row.role_id assignment));
     Row.set_deleted_at := None |}.

Definition updated_ok (message : string) (updated : Row.t) : response :=
  Response 200
    (Json.Obj [("status", Json.Str "success");
               ("message", Json.Str message);
               ("data", Row.to_json updated)]%string).

Definition updateShiftAssignment (id : option Z) (b : UpdateBody.t) (d : db)
  : response * db :=
  match id with
  | None => (invalid_id, d)
  | Some i =>
    match find_assignment i d with
    | None => (not_found, d)
    | Some assignment =>
      let parsedStart := parsedStart_of b assignment in
      let parsedEnd := parsedEnd_of b assignment in
      if end_before_start parsedEnd parsedStart
      then (error 400 "endDate cannot be before startDate.", d)
      else
        match overlapping d i assignment parsedStart parsedEnd with
        | Some _ =>
          (error 400 "User already has an overlapping active shift.", d)
        | None =>
          match update i (update_data b assignment) d with
          | Some (d', updated) =>
            (updated_ok "Shift assignment updated successfully." updated, d')
          | None => (internal_error, d)
          end
        end
    end
  end.

Definition newStatus (assignment : Row.t) : string :=
  if String.eqb (Row.status assignment) "active" then "inactive" else "active".

Definition status_data (s : string) : Row.data :=
  {| Row.set_startDate := None;
     Row.set_endDate := None;
     Row.set_status := Some s;
     Row.set_notes := None;
     Row.set_role_id := None;
     Row.set_deleted_at := None |}.

Definition toggleShiftAssignmentStatus (id : option Z) (d : db)
  : response * db :=
  match id with
  | None => (invalid_id, d)
  | Some i =>
    match find_assignment i d with
    | None => (not_found, d)
    | Some assignment =>
      match update i (status_data (newStatus assignment)) d with
      | Some (d', updated) =>
        (updated_ok "Shift assignment status updated successfully." updated,
         d')
      | None => (internal_error, d)
      end
    end
  end.

Definition delete_data (now : Z) : Row.data :=
  {| Row.set_startDate := None;
     Row.set_endDate := None;
     Row.set_status := Some "inactive"%string;
     Row.set_notes := None;
     Row.set_role_id := None;
     Row.set_deleted_at := Some (Some now) |}.

Definition deleteShiftAssignment (now : Z) (id : option Z) (d : db)
  : response * db :=
  match id with
  | None => (invalid_id, d)
  | Some i =>
    match find_assignment i d with
    | None => (not_found, d)
    | Some _ =>
      match update i (delete_data now) d with
      | Some (d', _) =>
        (Response 200
           (Json.Obj
              [("status", Json.Str "success");
               ("message", Json.Str "Shift assignment deleted successfully.")]%string),
         d')
      | None => (internal_error, d)
      end
    end
  end.

End Controller.

(* ------------------------------------------------------------------ *)
(** ** Notions of the specification *)

Module TimeRange.

(** A range [[start, end]] whose end may be absent (unbounded). *)
Record t : Type := Make { start : Z; end_ : option Z }.

Definition valid (r : t) : Prop :=
  match end_ r with
  | Some e => start r <= e
  | None => True
  end.

(** [x <= (bound or +infinity)] *)
Definition le_or_inf (x : Z) (bound : option Z) : bool :=
  match bound with
  | Some e => x <=? e
  | None => true
  end.

(** Section 4.1 in its own words: A and B overlap iff
    [A.start <= (B.end or +infinity)] and
    [(A.end or +infinity) >= B.start]. *)
Definition overlaps (A B : t) : bool :=
  le_or_inf (start A) (end_ B) && le_or_inf (start B) (end_ A).

Definition of_row (a : Row.t) : t :=
  {| start := Row.startDate a; end_ := Row.endDate a |}.

End TimeRange.

Module Plan.
Import Prisma Controller.

(** An active, non-deleted assignment. *)
Definition live (a : Row.t) : bool := active a && is_null (Row.deleted_at a).

(** Row [a] makes worker [w] a duplicate on shift [shiftId]. *)
Definition duplicates_on (shiftId w : Z) (a : Row.t) : bool :=
  (Row.shiftId a =? shiftId) && (Row.user_id a =? w) && live a.

(** Row [a] is reported by the detector's overlap query against the
    candidate range for worker [w]. *)
Definition overlaps_with (parsedStart : Z) (parsedEnd : option Z) (w : Z)
    (a : Row.t) : bool :=
  (Row.user_id a =? w) && live a && overlap_where parsedStart parsedEnd a.

Definition is_duplicate (d : db) (shiftId w : Z) : bool :=
  existsb (duplicates_on shiftId w) (shift_assignments d).

Definition is_overlapping (d : db) (parsedStart : Z) (parsedEnd : option Z)
    (w : Z) : bool :=
  existsb (overlaps_with parsedStart parsedEnd w) (shift_assignments d).

(** [blocked = duplicates ∪ overlapping] *)
Definition is_blocked (d : db) (shiftId : Z) (parsedStart : Z)
    (parsedEnd : option Z) (w : Z) : bool :=
  is_duplicate d shiftId w || is_overlapping d parsedStart parsedEnd w.

(** A request that passes validation and whose shift resolves. *)
Record accepted (b : CreateBody.t) (d : db) (shiftId company_id : Z)
    (parsedStart : Z) (role_id : Z) (user_ids : list Z) : Prop := {
  acc_shiftId : CreateBody.shiftId b = Some shiftId;
  acc_company_id : CreateBody.company_id b = Some company_id;
  acc_startDate : CreateBody.startDate b = Some parsedStart;
  acc_role_id : CreateBody.role_id b = Some role_id;
  acc_user_ids : CreateBody.user_ids b = Some user_ids;
  acc_truthy : shiftId <> 0 /\ company_id <> 0 /\ role_id <> 0;
  acc_nonempty : user_ids <> [];
  acc_range : end_before_start (CreateBody.endDate b) parsedStart = false;
  acc_shift :
    findFirst (shift_where shiftId company_id) (shifts d) <> None
}.

(** [data.k] of a response body. *)
Definition data_field (k : string) (r : response) : option Json.t :=
  match Json.get "data" (body r) with
  | Some j => Json.get k j
  | None => None
  end.

(** The list [l] of spelled identifiers names exactly the workers
    satisfying [P]. *)
Definition names (l : list string) (P : Z -> Prop) : Prop :=
  forall s, In s l <-> exists w, s = toString w /\ P w.

(** Same top-level keys and same keys under [data]. *)
Definition same_shape (r1 r2 : response) : Prop :=
  Json.keys (body r1) = Json.keys (body r2) /\
  option_map Json.keys (Json.get "data" (body r1)) =
  option_map Json.keys (Json.get "data" (body r2)).

(** Agreement on every column but [status]. *)
Definition same_but_status (r r' : Row.t) : Prop :=
  Row.id r' = Row.id r /\ Row.shiftId r' = Row.shiftId r /\
  Row.user_id r' = Row.user_id r /\ Row.role_id r' = Row.role_id r /\
  Row.startDate r' = Row.startDate r /\ Row.endDate r' = Row.endDate r /\
  Row.notes r' = Row.notes r /\ Row.deleted_at r' = Row.deleted_at r /\
  Row.createdAt r' = Row.createdAt r.

(** The detector's relation between two assignments' ranges: [A] as the
    candidate ([parsedStart], [parsedEnd]), [B] as the stored row. *)
Definition detector_overlaps (A B : Row.t) : bool :=
  overlap_where (Row.startDate A) (Row.endDate A) B.

(** Between [d] and [d'] nothing changed but the [status] column of the
    rows whose id is [i]. *)
Definition only_status_changed (i : Z) (d d' : db) : Prop :=
  shifts d' = shifts d /\ next_id d' = next_id d /\
  Forall2 (fun r r' => same_but_status r r' /\ (Row.id r <> i -> r' = r))
          (shift_assignments d) (shift_assignments d').

(** The value a partial update leaves in a column: the requested one if
    the request has it, the stored one otherwise. *)
Definition requested_or {A} (requested : option A) (stored : A) : A :=
  match requested with
  | Some v => v
  | None => stored
  end.

Definition requested_or_null {A} (requested : option A) (stored : option A)
  : option A :=
  match requested with
  | Some v => Some v
  | None => stored
  end.

End Plan.

(* ------------------------------------------------------------------ *)
(** ** Blocking as sections 4.1 to 4.3 define it *)

Module PlanSpec.
Import Prisma Controller Plan.

(** Row [a] is an active, non-deleted assignment of worker [w] whose range
    overlaps the candidate range in the sense of section 4.1. *)
Definition overlaps_spec (start : Z) (end_ : option Z) (w : Z) (a : Row.t)
  : bool :=
  (Row.user_id a =? w) && live a
  && TimeRange.overlaps (TimeRange.Make start end_) (TimeRange.of_row a).

(** Section 4.2, "Overlapping". *)
Definition overlapping_spec (d : db) (start : Z) (end_ : option Z) (w : Z)
  : bool :=
  existsb (overlaps_spec start end_ w) (shift_assignments d).

(** Section 4.3 step 4: [blocked = duplicates ∪ overlapping]. *)
Definition blocked_spec (d : db) (shiftId : Z) (start : Z)
    (end_ : option Z) (w : Z) : bool :=
  is_duplicate d shiftId w || overlapping_spec d start end_ w.

(** The stores on which nothing is said about the overlap query's missed
    case: no active, non-deleted assignment of a requested worker is
    open-ended and starts after the candidate's start, and, when the
    candidate itself is open-ended, none starts after 9999-12-31. *)
Definition no_later_open_ended (d : db) (start : Z) (end_ : option Z)
    (ids : list Z) : Prop :=
  forall a,
    In a (shift_assignments d) -> live a = true -> In (Row.user_id a) ids ->
    match Row.endDate a, end_ with
    | Some _, Some _ => True
    | Some _, None => Row.startDate a <= far_future
    | None, _ => Row.startDate a <= start
    end.

(** The workers among [ids], each once. *)
Definition distinct (ids : list Z) : list Z := nodup Z.eq_dec ids.

End PlanSpec.

(* ------------------------------------------------------------------ *)
(** ** Concrete stores and requests *)

Module Examples.
Import Prisma Controller.

(** Two shifts of company 1. *)
Definition two_shifts : list ShiftRow.t :=
  [ ShiftRow.Make 1 1 None; ShiftRow.Make 2 1 None ].

Definition assignment (id shiftId user_id startDate : Z) (endDate : option Z)
    (status : string) : Row.t :=
  {| Row.id := id; Row.shiftId := shiftId; Row.user_id := user_id;
     Row.role_id := 5; Row.startDate := startDate; Row.endDate := endDate;
     Row.status := status; Row.notes := None; Row.deleted_at := None;
     Row.createdAt := 0 |}.

Definition request (shiftId : Z) (user_ids : list Z) (startDate : Z)
    (endDate : option Z) : CreateBody.t :=
  {| CreateBody.shiftId := Some shiftId;
     CreateBody.user_ids := Some user_ids;
     CreateBody.company_id := Some 1;
     CreateBody.startDate := Some startDate;
     CreateBody.endDate := endDate;
     CreateBody.role_id := Some 5;
     CreateBody.notes := None |}.

(** Worker 7 holds an open-ended active assignment on shift 1 that starts
    at instant 10. *)
Definition open_ended : Row.t := assignment 1 1 7 10 None "active".

Definition store_open : db :=
  {| shifts := two_shifts; shift_assignments := [open_ended]; next_id := 2 |}.

(** No assignment yet. *)
Definition store_empty : db :=
  {| shifts := two_shifts; shift_assignments := []; next_id := 1 |}.

(** Worker 7 holds a closed active assignment [[10, 30]] on shift 1. *)
Definition closed : Row.t := assignment 1 1 7 10 (Some 30) "active".

Definition store_closed : db :=
  {| shifts := two_shifts; shift_assignments := [closed]; next_id := 2 |}.

(** Worker 7 holds [[1, 3]] on shift 1 and an open-ended assignment from 10
    on shift 2. *)
Definition store_two : db :=
  {| shifts := two_shifts;
     shift_assignments :=
       [ assignment 1 1 7 1 (Some 3) "active";
         assignment 2 2 7 10 None "active" ];
     next_id := 3 |}.

Definition extend_to (e : Z) : UpdateBody.t :=
  {| UpdateBody.startDate := None; UpdateBody.endDate := Some e;
     UpdateBody.status := None; UpdateBody.notes := None;
     UpdateBody.role_id := None |}.

Definition move_to (s e : Z) : UpdateBody.t :=
  {| UpdateBody.startDate := Some s; UpdateBody.endDate := Some e;
     UpdateBody.status := None; UpdateBody.notes := None;
     UpdateBody.role_id := None |}.

End Examples.

(* ------------------------------------------------------------------ *)
(** ** The writing routes as one transition function *)

Module Routes.
Import Prisma Controller.

(** The four routes of [shiftAssign_router] that write:
    [POST /], [PUT /:id], [PATCH /:id/toggle-status], [DELETE /:id]. *)
Inductive request : Type :=
| Post (now : Z) (b : CreateBody.t)
| Put (id : option Z) (b : UpdateBody.t)
| Patch (id : option Z)
| Delete (now : Z) (id : option Z).

Definition shiftAssign_router (r : request) (d : db) : response * db :=
  match r with
  | Post now b => createShiftAssignments now b d
  | Put id b => updateShiftAssignment id b d
  | Patch id => toggleShiftAssignmentStatus id d
  | Delete now id => deleteShiftAssignment now id d
  end.

(** The store after a sequence of requests. *)
Fixpoint serve (rs : list request) (d : db) : db :=
  match rs with
  | [] => d
  | r :: rs' => serve rs' (snd (shiftAssign_router r d))
  end.

(** [endDate], when present, is not before [startDate]. *)
Definition range_ok (a : Row.t) : Prop :=
  match Row.endDate a with
  | Some e => Row.startDate a <= e
  | None => True
  end.

Definition ranges_ok (d : db) : Prop := Forall range_ok (shift_assignments d).

(** The primary key of [shift_assignments]: ids are pairwise distinct and
    below the next value of the identity sequence. *)
Definition primary_key (d : db) : Prop :=
  NoDup (map Row.id (shift_assignments d)) /\
  Forall (fun a => Row.id a < next_id d) (shift_assignments d).

(** The columns no route writes. *)
Definition same_identity (r r' : Row.t) : Prop :=
  Row.id r' = Row.id r /\ Row.shiftId r' = Row.shiftId r /\
  Row.user_id r' = Row.user_id r /\ Row.createdAt r' = Row.createdAt r.

Definition empty_body : UpdateBody.t :=
  {| UpdateBody.startDate := None; UpdateBody.endDate := None;
     UpdateBody.status := None; UpdateBody.notes := None;
     UpdateBody.role_id := None |}.

End Routes.

(* ------------------------------------------------------------------ *)
(** ** formatTimeFromDatabase *)

Module Time.

(** [fill n pad rest]: [n] characters read cyclically from [pad], starting
    inside it at [rest]. *)
Fixpoint fill (n : nat) (pad rest : string) : string :=
  match n with
  | O => EmptyString
  | S n' =>
    match rest with
    | String c rest' => String c (fill n' pad rest')
    | EmptyString =>
      match pad with
      | String c pad' => String c (fill n' pad pad')
      | EmptyString => EmptyString
      end
    end
  end.

(** [s.padStart(targetLength, padString)] *)
Definition padStart (targetLength : nat) (padString : string) (s : string)
  : string :=
  if (targetLength <=? String.length s)%nat then s
  else String.append
         (fill (targetLength - String.length s) padString padString) s.

(** [date.getUTCHours()] and [date.getUTCMinutes()] of a time value. *)
Definition getUTCHours (t : Z) : Z := (t / 3600000) mod 24.
Definition getUTCMinutes (t : Z) : Z := (t / 60000) mod 60.

(** [dateTime] is [null] or a [Date]. *)
Definition formatTimeFromDatabase (dateTime : option Z) : option string :=
  match dateTime with
  | None => None
  | Some date =>
    let hours := padStart 2 "0" (toString (getUTCHours date)) in
    let minutes := padStart 2 "0" (toString (getUTCMinutes date)) in
    Some (String.append hours (String.append ":" minutes))
  end.

(** The two-digit decimal spelling of a number below 100. *)
Definition digit_char (k : Z) : ascii := ascii_of_nat (48 + Z.to_nat k).

Definition two_digits (n : Z) : string :=
  String (digit_char (n / 10)) (String (digit_char (n mod 10)) EmptyString).

(** Reading a clock string back: the value of a decimal digit, and the
    minute of the day that ["HH:MM"] denotes. *)
Definition digit_value (c : ascii) : option Z :=
  let n := Z.of_nat (nat_of_ascii c) in
  if (48 <=? n) && (n <=? 57) then Some (n - 48) else None.

Definition read_clock (s : string) : option Z :=
  match s with
  | String h1 (String h0 (String sep (String m1 (String m0 EmptyString)))) =>
    match digit_value h1, digit_value h0, digit_value m1, digit_value m0 with
    | Some a, Some b, Some c, Some e =>
      if Ascii.eqb sep ":" then Some ((10 * a + b) * 60 + (10 * c + e))
      else None
    | _, _, _, _ => None
    end
  | _ => None
  end.

End Time.

(* ------------------------------------------------------------------ *)
(** ** Pagination helpers *)

Module Pagination.

(** A JS number as these helpers can produce it: an integer, or what a
    division by zero gives.  Counts, pages and limits are integers in the
    range where JS numbers are exact, on which [Math.ceil(a / b)] is the
    exact ceiling. *)
Inductive number : Type :=
| Finite (z : Z)
| PosInfinity
| NegInfinity
| NotANumber.

(** The integers every JS number below them in size represents exactly
    (up to 2^53). *)
Definition exact (z : Z) : Prop :=
  - 9007199254740992 <= z <= 9007199254740992.

(** [query.page] and [query.limit], each given by what [parseInt] reads
    from it: [None] is [NaN]. *)
Record query : Type := Query { q_page : option Z; q_limit : option Z }.

(** [options]; a field left [None] is [undefined] and takes its default. *)
Record options : Type := Options {
  defaultPage : option Z;
  defaultLimit : option Z;
  maxLimit : option Z
}.

Definition no_options : options := Options None None None.

Record params : Type := Params { page : Z; limit : Z; skip : Z }.

(** [parsed || dflt]: [NaN] and [0] are falsy. *)
Definition or_else (parsed : option Z) (dflt : Z) : Z :=
  match parsed with
  | Some v => if v =? 0 then dflt else v
  | None => dflt
  end.

(** Destructuring default [{ x = dflt }]. *)
Definition default_to (x : option Z) (dflt : Z) : Z :=
  match x with
  | Some v => v
  | None => dflt
  end.

Definition parsePaginationParams (q : query) (o : options) : params :=
  let defaultPage := default_to (defaultPage o) 1 in
  let defaultLimit := default_to (defaultLimit o) 10 in
  let maxLimit := default_to (maxLimit o) 100 in
  let page := Z.max 1 (or_else (q_page q) defaultPage) in
  let limit := Z.min (Z.max 1 (or_else (q_limit q) defaultLimit)) maxLimit in
  let skip := (page - 1) * limit in
  {| page := page; limit := limit; skip := skip |}.

(** [Math.ceil(a / b)] on integers. *)
Definition ceil_div (a b : Z) : number :=
  if b =? 0
  then (if 0 <? a then PosInfinity
        else if a <? 0 then NegInfinity else NotANumber)
  else Finite (- ((- a) / b)).

(** [p < n] *)
Definition less_than (p : Z) (n : number) : bool :=
  match n with
  | Finite z => p <? z
  | PosInfinity => true
  | NegInfinity => false
  | NotANumber => false
  end.

Record meta : Type := Meta {
  currentPage : Z;
  totalPages : number;
  totalCount : Z;
  meta_limit : Z;
  hasNextPage : bool;
  hasPrevPage : bool;
  nextPage : option Z;
  prevPage : option Z
}.

Definition calculatePaginationMeta (totalCount page limit : Z) : meta :=
  let totalPages := ceil_div totalCount limit in
  let hasNextPage := less_than page totalPages in
  let hasPrevPage := 1 <? page in
  {| currentPage := page;
     totalPages := totalPages;
     totalCount := totalCount;
     meta_limit := limit;
     hasNextPage := hasNextPage;
     hasPrevPage := hasPrevPage;
     nextPage := if hasNextPage then Some (page + 1) else None;
     prevPage := if hasPrevPage then Some (page - 1) else None |}.

(** [prismaModel.findMany({ where, include, orderBy, skip, take, select })]
    on a table: [orderBy] is the ordering the store applies, [view] what
    [include] and [select] make of a row.  A negative [take] counts from
    the end of the ordered rows. *)
Definition findMany_page {A B} (where_ : A -> bool)
    (orderBy : list A -> list A) (view : A -> B) (skip take : Z)
    (table : list A) : list B :=
  let rows := orderBy (filter where_ table) in
  map view
      (if 0 <=? take
       then firstn (Z.to_nat take) (skipn (Z.to_nat skip) rows)
       else rev (firstn (Z.to_nat (- take)) (skipn (Z.to_nat skip) (rev rows)))).

(** [prismaModel.count({ where })] *)
Definition count {A} (where_ : A -> bool) (table : list A) : Z :=
  Z.of_nat (List.length (filter where_ table)).

(** [page] and [limit] are [None] when the caller leaves them undefined. *)
Definition paginateWithPrisma {A B} (table : list A) (where_ : A -> bool)
    (orderBy : list A -> list A) (view : A -> B) (page limit : option Z)
  : list B * meta :=
  let page := default_to page 1 in
  let limit := default_to limit 10 in
  let skip := skip (parsePaginationParams (Query (Some page) (Some limit))
                                          no_options) in
  let data := findMany_page where_ orderBy view skip limit table in
  let totalCount := count where_ table in
  (data, calculatePaginationMeta totalCount page limit).

End Pagination.

(* ------------------------------------------------------------------ *)
(** ** Ordered listings *)

Module Order.

(** [orderBy: { key: "desc" }]: rows by decreasing key.  The store leaves
    the order of rows of equal key open; here they keep the order of the
    table. *)
Fixpoint insert_desc {A} (key : A -> Z) (x : A) (l : list A) : list A :=
  match l with
  | [] => [x]
  | y :: l' =>
    if key y <=? key x then x :: y :: l' else y :: insert_desc key x l'
  end.

Definition desc {A} (key : A -> Z) (l : list A) : list A :=
  fold_right (insert_desc key) [] l.

Fixpoint decreasing (ks : list Z) : Prop :=
  match ks with
  | [] => True
  | k :: ks' => Forall (fun k' => k' <= k) ks' /\ decreasing ks'
  end.

End Order.

Module Listing.
Import Prisma.

(** The rows [getShiftAssignmentsByShiftId] reads:
    [findMany({ where: { shiftId, deleted_at: null },
                orderBy: { startDate: "desc" } })]. *)
Definition assignmentsByShift (d : db) (shiftId : Z) : list Row.t :=
  Order.desc Row.startDate
    (findMany (fun a => (Row.shiftId a =? shiftId)
                        && is_null (Row.deleted_at a))
              (shift_assignments d)).

(** [getShiftAssignmentsByShiftId]; [serialize] stands for the relations
    joined by [include] followed by [serializeBigInt] (utils/serializer.js
    is not part of the sources).  The route parameter is [None] when
    empty. *)
Definition getShiftAssignmentsByShiftId (serialize : list Row.t -> Json.t)
    (shiftId : option Z) (d : db) : response :=
  match shiftId with
  | None => Controller.error 400 "Shift ID is required"
  | Some s =>
    Response 200
      (Json.Obj [("status", Json.Str "success");
                 ("data", serialize (assignmentsByShift d s))]%string)
  end.

End Listing.

(* ------------------------------------------------------------------ *)
(** ** serviceRequestController.js *)

(** The store accepts every insertion, so the [catch] branch of
    [createServiceRequest] is not reached; it compares strings exactly. *)
Module ServiceRequest.

Section Handlers.

(** The type of the [latitude] and [longitude] values of a request body,
    their truthiness and their JSON form; [String.prototype.toLowerCase]. *)
Variable coordinate : Type.
Variable truthy : coordinate -> bool.
Variable coordinate_json : coordinate -> Json.t.
Variable toLowerCase : string -> string.

(** The columns of [service_request] that the controller reads and writes;
    [id] and [created_at] are filled in by the store. *)
Record row : Type := Row {
  id : Z;
  latitude : coordinate;
  longitude : coordinate;
  city : option string;
  state : option string;
  request_type : string;
  created_at : Z
}.

Record store : Type := Store { service_request : list row; next_id : Z }.

(** [req.body] of [POST /api/service-requests]. *)
Record body : Type := Body {
  b_latitude : option coordinate;
  b_longitude : option coordinate;
  b_city : option string;
  b_state : option string;
  b_requestType : option string
}.

(** [req.query] of [GET /api/service-requests]. *)
Record query : Type := Query {
  q_city : option string;
  q_requestType : option string
}.

Definition ALLOWED_REQUEST_TYPES : list string :=
  ["CITY_NOT_AVAILABLE"; "NO_TOILET_WITHIN_RADIUS"]%string.

(** [xs.includes(x)] *)
Definition includes (xs : list string) (x : string) : bool :=
  existsb (String.eqb x) xs.

Definition failure (c : Z) (message : string) : response :=
  Response c (Json.Obj [("error"%string, Json.Str message)]).

(** [{...item, id: item.id.toString()}] *)
Definition row_json (r : row) : Json.t :=
  Json.Obj
    [ ("id", Json.Str (toString (id r)));
      ("latitude", coordinate_json (latitude r));
      ("longitude", coordinate_json (longitude r));
      ("city", Json.of_option Json.Str (city r));
      ("state", Json.of_option Json.Str (state r));
      ("request_type", Json.Str (request_type r));
      ("created_at", Json.Date (created_at r)) ]%string.

(** A string that is present and not empty. *)
Definition present (x : option string) : option string :=
  match x with
  | Some EmptyString => None
  | _ => x
  end.

Definition createServiceRequest (now : Z) (b : body) (st : store)
  : response * store :=
  match b_latitude b, b_longitude b, present (b_requestType b) with
  | Some latitude, Some longitude, Some requestType =>
    if negb (truthy latitude) || negb (truthy longitude)
    then (failure 400 "latitude, longitude, and requestType are required", st)
    else if negb (includes ALLOWED_REQUEST_TYPES requestType)
    then (failure 400 "Invalid requestType value", st)
    else
      let data :=
        {| id := next_id st;
           latitude := latitude;
           longitude := longitude;
           city := option_map toLowerCase (b_city b);
           state := option_map toLowerCase (b_state b);
           request_type := requestType;
           created_at := now |} in
      (Response 201
         (Json.Obj [("message", Json.Str "Service request created");
                    ("data", row_json data)]%string),
       {| service_request := service_request st ++ [data];
          next_id := next_id st + 1 |})
  | _, _, _ =>
    (failure 400 "latitude, longitude, and requestType are required", st)
  end.

(** The [where] object built from the query. *)
Definition where_ (q : query) (r : row) : bool :=
  match present (q_city q) with
  | Some c =>
    match city r with
    | Some c' => String.eqb c' (toLowerCase c)
    | None => false
    end
  | None => true
  end
  &&
  match present (q_requestType q) with
  | Some t => String.eqb (request_type r) t
  | None => true
  end.

(** The rows [getServiceRequests] reads. *)
Definition found (q : query) (st : store) : list row :=
  Order.desc created_at (filter (where_ q) (service_request st)).

(** [store_throws] tells whether [findMany] throws (the store is
    unreachable), which the [catch] turns into a 500.  Query values are
    single strings. *)
Definition getServiceRequests (store_throws : bool) (q : query) (st : store)
  : response :=
  if store_throws
  then failure 500 "Failed to fetch service requests"
  else
    let data := found q st in
    Response 200
      (Json.Obj [("count", Json.Num (Z.of_nat (List.length data)));
                 ("data", Json.Arr (map row_json data))]%string).

(** Ids are pairwise distinct and below the identity sequence, and every
    stored request has one of the allowed types. *)
Definition stored_ok (st : store) : Prop :=
  NoDup (map id (service_request st)) /\
  Forall (fun r => id r < next_id st
                   /\ In (request_type r) ALLOWED_REQUEST_TYPES)
         (service_request st).

(** The store after a sequence of [POST] bodies, each with its time. *)
Fixpoint posted (bs : list (Z * body)) (st : store) : store :=
  match bs with
  | [] => st
  | (now, b) :: bs' => posted bs' (snd (createServiceRequest now b st))
  end.

End Handlers.

Arguments Row {coordinate} id latitude longitude city state request_type
  created_at.
Arguments id {coordinate} r.
Arguments latitude {coordinate} r.
Arguments longitude {coordinate} r.
Arguments city {coordinate} r.
Arguments state {coordinate} r.
Arguments request_type {coordinate} r.
Arguments created_at {coordinate} r.
Arguments Store {coordinate} service_request next_id.
Arguments service_request {coordinate} s.
Arguments next_id {coordinate} s.
Arguments Body {coordinate} b_latitude b_longitude b_city b_state
  b_requestType.
Arguments b_latitude {coordinate} b.
Arguments b_longitude {coordinate} b.
Arguments b_city {coordinate} b.
Arguments b_state {coordinate} b.
Arguments b_requestType {coordinate} b.
Arguments row_json {coordinate} coordinate_json r.
Arguments createServiceRequest {coordinate} truthy coordinate_json
  toLowerCase now b st.
Arguments where_ {coordinate} toLowerCase q r.
Arguments found {coordinate} toLowerCase q st.
Arguments getServiceRequests {coordinate} coordinate_json toLowerCase
  store_throws q st.
Arguments stored_ok {coordinate} st.
Arguments posted {coordinate} truthy coordinate_json toLowerCase bs st.

End ServiceRequest.

Module ServiceExamples.
Import ServiceRequest.

(** Coordinates as integers (millionths of a degree), [0] being falsy, and
    [toLowerCase] on ASCII letters. *)
Definition nonzero (z : Z) : bool := negb (z =? 0).

Definition lower_char (c : ascii) : ascii :=
  let n := nat_of_ascii c in
  if ((65 <=? n) && (n <=? 90))%nat then ascii_of_nat (n + 32) else c.

Fixpoint lower (s : string) : string :=
  match s with
  | EmptyString => EmptyString
  | String c s' => String (lower_char c) (lower s')
  end.

Definition no_requests : store Z := Store [] 1.

Definition pune : body Z :=
  Body (Some 18520430) (Some 73856744) (Some "Pune"%string)
       (Some "Maharashtra"%string) (Some "CITY_NOT_AVAILABLE"%string).

Definition on_equator : body Z :=
  Body (Some 0) (Some 73856744) (Some "Quito"%string) None
       (Some "NO_TOILET_WITHIN_RADIUS"%string).

End ServiceExamples.

(** Boolean conjunctions in hypotheses, and goals they decide. *)
Ltac split_andb :=
  repeat match goal with
         | H : andb _ _ = true |- _ => apply andb_prop in H; destruct H
         end.

Ltac use_true :=
  repeat match goal with
         | H : ?b = true |- _ => rewrite H
         end;
  try reflexivity.

(* ------------------------------------------------------------------ *)
(** ** Basic facts *)

Section Spelling.

Lemma to_int_not_nil (z : Z) :
  Z.to_int z <> Decimal.Pos Decimal.Nil /\ Z.to_int z <> Decimal.Neg Decimal.Nil.
Proof.
  destruct z as [|p|p]; simpl; split; try discriminate;
    intros [= H]; revert H; apply DecimalPos.Unsigned.to_uint_nonnil.
Qed.

Lemma toString_inj (x y : Z) : toString x = toString y -> x = y.
Proof.
  unfold toString. intros H.
  apply DecimalZ.to_int_inj.
  destruct (to_int_not_nil x) as [Hx1 Hx2].
  destruct (to_int_not_nil y) as [Hy1 Hy2].
  assert (Hx := NilZero.isi (Z.to_int x) Hx1 Hx2).
  assert (Hy := NilZero.isi (Z.to_int y) Hy1 Hy2).
  rewrite H in Hx. congruence.
Qed.

Lemma toString_eqb (x y : Z) :
  String.eqb (toString x) (toString y) = (x =? y).
Proof.
  destruct (Z.eqb_spec x y) as [->|Hne].
  - apply String.eqb_refl.
  - apply String.eqb_neq. intros H. apply Hne, toString_inj, H.
Qed.

End Spelling.

Section Planner.
Import Prisma Controller Plan.

Lemma existsb_pointwise {A} (f g : A -> bool) (l : list A) :
  (forall x, In x l -> f x = g x) -> existsb f l = existsb g l.
Proof.
  induction l as [|x l IH]; intros H; simpl; [reflexivity|].
  rewrite (H x (or_introl eq_refl)), IH; [reflexivity|].
  intros y Hy. apply H. right. exact Hy.
Qed.

Lemma isin_In (w : Z) (ids : list Z) : isin w ids = true <-> In w ids.
Proof.
  unfold isin. rewrite existsb_exists. split.
  - intros (x & Hx & E). apply Z.eqb_eq in E. subst. exact Hx.
  - intros H. exists w. split; [exact H | apply Z.eqb_refl].
Qed.

Lemma has_app (l1 l2 : list string) (s : string) :
  has (l1 ++ l2) s = has l1 s || has l2 s.
Proof. apply existsb_app. Qed.

Lemma has_spelled (P : Row.t -> bool) (rows : list Row.t) (w : Z) :
  has (map (fun a => toString (Row.user_id a)) (filter P rows)) (toString w)
  = existsb (fun a => (Row.user_id a =? w) && P a) rows.
Proof.
  unfold has. induction rows as [|a rows IH]; simpl; [reflexivity|].
  destruct (P a) eqn:HP; simpl; rewrite IH.
  - rewrite toString_eqb, Z.eqb_sym, andb_true_r. reflexivity.
  - rewrite andb_false_r. reflexivity.
Qed.

Lemma has_duplicates (d : db) (shiftId : Z) (ids : list Z) (w : Z) :
  In w ids ->
  has (duplicateUserIds d shiftId ids) (toString w) = is_duplicate d shiftId w.
Proof.
  intros Hin. unfold duplicateUserIds, existingSameShift, findMany.
  rewrite has_spelled. apply existsb_pointwise. intros a _.
  unfold duplicates_on, live.
  destruct (Z.eqb_spec (Row.user_id a) w) as [->|]; simpl.
  - rewrite (proj2 (isin_In w ids) Hin).
    destruct (Row.shiftId a =? shiftId), (active a), (is_null (Row.deleted_at a));
      reflexivity.
  - rewrite andb_false_r. reflexivity.
Qed.

Lemma has_overlapping (d : db) (ids : list Z) (s : Z) (e : option Z) (w : Z) :
  In w ids ->
  has (overlappingUserIds d ids s e) (toString w) = is_overlapping d s e w.
Proof.
  intros Hin. unfold overlappingUserIds, overlappingAssignments, findMany.
  rewrite has_spelled. apply existsb_pointwise. intros a _.
  unfold overlaps_with, live.
  destruct (Z.eqb_spec (Row.user_id a) w) as [->|]; simpl; [|reflexivity].
  rewrite (proj2 (isin_In w ids) Hin). reflexivity.
Qed.

Lemma usersToAssign_spec (d : db) (shiftId : Z) (ids : list Z) (s : Z)
    (e : option Z) :
  usersToAssign ids
    (blockedUserIds (duplicateUserIds d shiftId ids)
                    (overlappingUserIds d ids s e))
  = filter (fun w => negb (is_blocked d shiftId s e w)) ids.
Proof.
  unfold usersToAssign, blockedUserIds. apply filter_ext_in. intros w Hin.
  rewrite has_app, has_duplicates, has_overlapping by exact Hin.
  reflexivity.
Qed.

Lemma duplicateUserIds_names (d : db) (shiftId : Z) (ids : list Z) :
  names (duplicateUserIds d shiftId ids)
        (fun w => In w ids /\ is_duplicate d shiftId w = true).
Proof.
  intros s. unfold duplicateUserIds, existingSameShift, findMany, is_duplicate.
  rewrite in_map_iff. split.
  - intros (a & <- & Ha). apply filter_In in Ha. destruct Ha as [Ha Hp].
    split_andb.
    exists (Row.user_id a). split; [reflexivity|]. split.
    + apply isin_In. assumption.
    + apply existsb_exists. exists a. split; [exact Ha|].
      unfold duplicates_on, live. rewrite Z.eqb_refl. use_true.
  - intros (w & -> & Hin & Hd). apply existsb_exists in Hd.
    destruct Hd as (a & Ha & Hp). unfold duplicates_on, live in Hp.
    split_andb.
    match goal with H : (Row.user_id a =? w) = true |- _ =>
      apply Z.eqb_eq in H; subst w end.
    exists a. split; [reflexivity|].
    apply filter_In. split; [exact Ha|].
    apply isin_In in Hin. use_true.
Qed.

Lemma overlappingUserIds_names (d : db) (ids : list Z) (s : Z) (e : option Z) :
  names (overlappingUserIds d ids s e)
        (fun w => In w ids /\ is_overlapping d s e w = true).
Proof.
  intros x. unfold overlappingUserIds, overlappingAssignments, findMany,
    is_overlapping.
  rewrite in_map_iff. split.
  - intros (a & <- & Ha). apply filter_In in Ha. destruct Ha as [Ha Hp].
    split_andb.
    exists (Row.user_id a). split; [reflexivity|]. split.
    + apply isin_In. assumption.
    + apply existsb_exists. exists a. split; [exact Ha|].
      unfold overlaps_with, live. rewrite Z.eqb_refl. use_true.
  - intros (w & -> & Hin & Hd). apply existsb_exists in Hd.
    destruct Hd as (a & Ha & Hp). unfold overlaps_with, live in Hp.
    split_andb.
    match goal with H : (Row.user_id a =? w) = true |- _ =>
      apply Z.eqb_eq in H; subst w end.
    exists a. split; [reflexivity|].
    apply filter_In. split; [exact Ha|].
    apply isin_In in Hin. use_true.
Qed.

Lemma length_assignmentsToCreate shiftId s e role_id notes (users : list Z) :
  List.length (assignmentsToCreate shiftId s e role_id notes users)
  = List.length users.
Proof. apply length_map. Qed.

(** The handler on a request that passes validation, with the blocked set
    read off the store. *)
Lemma createShiftAssignments_accepted (now : Z) (b : CreateBody.t) (d : db)
    (shiftId company_id s role_id : Z) (ids : list Z) :
  accepted b d shiftId company_id s role_id ids ->
  let e := CreateBody.endDate b in
  let duplicates := duplicateUserIds d shiftId ids in
  let overlapping := overlappingUserIds d ids s e in
  let users := filter (fun w => negb (is_blocked d shiftId s e w)) ids in
  createShiftAssignments now b d =
  match users with
  | [] => (all_conflict duplicates overlapping, d)
  | _ :: _ =>
    (created (Z.of_nat (List.length users))
             (Z.of_nat (List.length ids) - Z.of_nat (List.length users))
             duplicates overlapping,
     fst (createMany now
            (assignmentsToCreate shiftId s e role_id (CreateBody.notes b) users)
            d))
  end.
Proof.
  intros [H1 H2 H3 H4 H5 (Hs & Hc & Hr) Hne Hrange Hshift]. cbv zeta.
  unfold createShiftAssignments. rewrite H1, H2, H3, H4, H5.
  unfold falsy, no_items.
  apply Z.eqb_neq in Hs, Hc, Hr. rewrite Hs, Hc, Hr.
  destruct ids as [|w0 ids0]; [congruence|]. cbn [orb].
  rewrite Hrange.
  destruct (findFirst (shift_where shiftId company_id) (shifts d));
    [|congruence].
  rewrite usersToAssign_spec.
  destruct (filter _ (w0 :: ids0)) as [|u us] eqn:Hu; [reflexivity|].
  unfold createMany. rewrite length_assignmentsToCreate. reflexivity.
Qed.

End Planner.

(* ------------------------------------------------------------------ *)
(** ** The batch planner *)

Section BatchPlanner.
Import Prisma Controller Plan.

Lemma length_split {A} (f : A -> bool) (l : list A) :
  Z.of_nat (List.length l) - Z.of_nat (List.length (filter (fun x => negb (f x)) l))
  = Z.of_nat (List.length (filter f l)).
Proof.
  induction l as [|x l IH]; cbn [filter List.length]; [reflexivity|].
  destruct (f x); cbn [negb List.length]; rewrite ?Nat2Z.inj_succ; lia.
Qed.

Lemma insert_from_user_ids fresh now shiftId s e role_id notes (users : list Z) :
  map Row.user_id
      (insert_from fresh now (assignmentsToCreate shiftId s e role_id notes users))
  = users.
Proof.
  revert fresh. induction users as [|u users IH]; intros fresh; simpl;
    [reflexivity|]. rewrite IH. reflexivity.
Qed.

Lemma insert_from_columns fresh now shiftId s e role_id notes (users : list Z) :
  Forall (fun r => Row.shiftId r = shiftId /\ Row.status r = "active"%string
                   /\ Row.deleted_at r = None
                   /\ Row.startDate r = s /\ Row.endDate r = e
                   /\ Row.role_id r = role_id)
         (insert_from fresh now (assignmentsToCreate shiftId s e role_id notes users)).
Proof.
  revert fresh. induction users as [|u users IH]; intros fresh; simpl;
    constructor; [repeat split | apply IH].
Qed.

Lemma filter_singleton_user shiftId w (rows : list Row.t) (a : Row.t) :
  filter (duplicates_on shiftId w) rows = [a] -> Row.user_id a = w.
Proof.
  intros H.
  assert (Hin : In a (filter (duplicates_on shiftId w) rows))
    by (rewrite H; left; reflexivity).
  apply filter_In in Hin. destruct Hin as [_ Hp].
  unfold duplicates_on in Hp. split_andb.
  apply Z.eqb_eq. assumption.
Qed.

(** The batch in terms of what the detector reports: on a request that
    passes validation and names an entry that is not reported, the handler
    answers 201, appends one active row per unreported entry and counts
    entries. *)
Lemma batch_create_as_reported :
  forall now b d shiftId company_id s role_id ids,
    accepted b d shiftId company_id s role_id ids ->
    let e := CreateBody.endDate b in
    let blocked := is_blocked d shiftId s e in
    (exists w, In w ids /\ blocked w = false) ->
    exists resp d' new dl ol,
      createShiftAssignments now b d = (resp, d') /\
      code resp = 201 /\
      Json.get "status" (body resp) = Some (Json.Str "success") /\
      shift_assignments d' = shift_assignments d ++ new /\
      map Row.user_id new = filter (fun w => negb (blocked w)) ids /\
      Forall (fun r => Row.shiftId r = shiftId
                       /\ Row.status r = "active"%string
                       /\ Row.deleted_at r = None
                       /\ Row.startDate r = s /\ Row.endDate r = e
                       /\ Row.role_id r = role_id) new /\
      data_field "created" resp
      = Some (Json.Num
                (Z.of_nat (List.length (filter (fun w => negb (blocked w)) ids)))) /\
      data_field "skipped" resp
      = Some (Json.Num (Z.of_nat (List.length (filter blocked ids)))) /\
      data_field "duplicateUserIds" resp = Some (strings dl) /\
      dl = duplicateUserIds d shiftId ids /\
      names dl (fun w => In w ids /\ is_duplicate d shiftId w = true) /\
      data_field "overlappingUserIds" resp = Some (strings ol) /\
      names ol (fun w => In w ids /\ is_overlapping d s e w = true).
Proof.
  intros now b d shiftId company_id s role_id ids Hacc e blocked (w & Hin & Hw).
  rewrite (createShiftAssignments_accepted now _ _ _ _ _ _ _ Hacc).
  fold e. fold blocked.
  destruct (filter (fun w => negb (blocked w)) ids) as [|u us] eqn:Hu.
  { assert (Hf : In w (filter (fun w => negb (blocked w)) ids))
      by (apply filter_In; split; [exact Hin | rewrite Hw; reflexivity]).
    rewrite Hu in Hf. destruct Hf. }
  rewrite <- Hu.
  eexists _, _, _, (duplicateUserIds d shiftId ids),
    (overlappingUserIds d ids s e).
  split; [reflexivity|].
  split; [reflexivity|].
  split; [reflexivity|].
  split; [reflexivity|].
  split; [apply insert_from_user_ids|].
  split; [apply insert_from_columns|].
  split; [reflexivity|].
  split; [unfold data_field; simpl; rewrite length_split; reflexivity|].
  split; [reflexivity|].
  split; [reflexivity|].
  split; [apply duplicateUserIds_names|].
  split; [reflexivity|].
  apply overlappingUserIds_names.
Qed.

(** The same-shift query for two requested workers of whom the second holds
    nothing on the shift returns the first one's rows. *)
Lemma same_shift_rows_of_pair (d : db) (shiftId W1 W2 : Z) :
  is_duplicate d shiftId W2 = false ->
  existingSameShift d shiftId [W1; W2]
  = filter (duplicates_on shiftId W1) (shift_assignments d).
Proof.
  intros HW2. unfold existingSameShift, findMany.
  apply filter_ext_in. intros r Hr.
  unfold duplicates_on, live, isin. simpl.
  destruct (Z.eqb_spec (Row.user_id r) W1) as [E1|N1]; simpl.
  - destruct (Row.shiftId r =? shiftId), (active r),
      (is_null (Row.deleted_at r)); reflexivity.
  - destruct (Z.eqb_spec (Row.user_id r) W2) as [E2|N2]; simpl.
    + unfold is_duplicate in HW2.
      assert (Hr2 : duplicates_on shiftId W2 r = false).
      { destruct (duplicates_on shiftId W2 r) eqn:Hd; [|reflexivity].
        rewrite <- HW2. symmetry. apply existsb_exists.
        exists r. split; assumption. }
      unfold duplicates_on, live in Hr2. rewrite E2, Z.eqb_refl in Hr2.
      destruct (Row.shiftId r =? shiftId), (active r),
        (is_null (Row.deleted_at r)); simpl in *; congruence.
    + rewrite !andb_false_r. reflexivity.
Qed.

Lemma spelled_same_shift_rows (shiftId w : Z) (rows : list Row.t) :
  map (fun a => toString (Row.user_id a)) (filter (duplicates_on shiftId w) rows)
  = repeat (toString w)
           (List.length (filter (duplicates_on shiftId w) rows)).
Proof.
  induction rows as [|a rows IH]; simpl; [reflexivity|].
  destruct (duplicates_on shiftId w a) eqn:Ha; [|exact IH].
  simpl. rewrite IH. f_equal. f_equal.
  unfold duplicates_on in Ha. split_andb.
  apply Z.eqb_eq. assumption.
Qed.

End BatchPlanner.

Section BatchRejection.
Import Prisma Controller Plan.

Lemma accepted_request (d : db) (shiftId : Z) (ids : list Z) (s : Z)
    (e : option Z) :
  shifts d = Examples.two_shifts ->
  shiftId = 1 \/ shiftId = 2 ->
  ids <> [] ->
  end_before_start e s = false ->
  accepted (Examples.request shiftId ids s e) d shiftId 1 s 5 ids.
Proof.
  intros Hs Hid Hne Hr.
  constructor; try reflexivity; try assumption.
  - destruct Hid; subst; repeat split; discriminate.
  - rewrite Hs. destruct Hid; subst; discriminate.
Qed.

(** C3, as stated, fails: with worker 7 already active on shift 1, the
    request for [[7]] on shift 1 writes nothing and is rejected, but the
    body sent has neither the keys of a success body nor any [created]
    count, so it is not "the success shape with [created = 0]". *)
Lemma all_blocked_shape_counterexample :
  let run :=
    createShiftAssignments 0 (Examples.request 1 [7] 10 (Some 30))
                           Examples.store_closed in
  let rejected := fst run in
  let succeeded :=
    fst (createShiftAssignments 0 (Examples.request 2 [8] 10 (Some 30))
                                Examples.store_closed) in
  snd run = Examples.store_closed /\
  code rejected = 400 /\ code succeeded = 201 /\
  data_field "created" succeeded = Some (Json.Num 1) /\
  ~ same_shape rejected succeeded /\
  data_field "created" rejected = None /\
  Json.get "created" (body rejected) = None /\
  ~ (same_shape rejected succeeded
     /\ data_field "created" rejected = Some (Json.Num 0)).
Proof.
  cbv zeta. repeat (split; [reflexivity|]).
  split; [intros [H _]; vm_compute in H; discriminate H|].
  repeat (split; [reflexivity|]).
  intros [_ H]. vm_compute in H. discriminate H.
Qed.

(** C3, amended. On a request that passes validation and in which every
    requested worker is blocked, the handler writes nothing and answers 400
    with a body of keys [status], [message], [duplicates], [overlapping]:
    the two lists name the duplicate and the overlapping workers; the body
    has no [data] object and no [created] or [skipped] count. *)
Theorem batch_create_all_blocked :
  forall now b d shiftId company_id s role_id ids,
    accepted b d shiftId company_id s role_id ids ->
    let e := CreateBody.endDate b in
    (forall w, In w ids -> is_blocked d shiftId s e w = true) ->
    exists resp dl ol,
      createShiftAssignments now b d = (resp, d) /\
      code resp = 400 /\
      Json.keys (body resp)
      = ["status"; "message"; "duplicates"; "overlapping"]%string /\
      Json.get "status" (body resp) = Some (Json.Str "error") /\
      Json.get "duplicates" (body resp) = Some (strings dl) /\
      names dl (fun w => In w ids /\ is_duplicate d shiftId w = true) /\
      Json.get "overlapping" (body resp) = Some (strings ol) /\
      names ol (fun w => In w ids /\ is_overlapping d s e w = true) /\
      Json.get "data" (body resp) = None /\
      Json.get "created" (body resp) = None /\
      Json.get "skipped" (body resp) = None.
Proof.
  intros now b d shiftId company_id s role_id ids Hacc e Hall.
  rewrite (createShiftAssignments_accepted now _ _ _ _ _ _ _ Hacc). fold e.
  destruct (filter (fun w => negb (is_blocked d shiftId s e w)) ids)
    as [|u us] eqn:Hu.
  - exists (all_conflict (duplicateUserIds d shiftId ids)
                         (overlappingUserIds d ids s e)),
      (duplicateUserIds d shiftId ids), (overlappingUserIds d ids s e).
    repeat (split; [reflexivity|]).
    split; [apply duplicateUserIds_names|].
    split; [reflexivity|].
    split; [apply overlappingUserIds_names|].
    repeat split.
  - assert (Hin : In u (filter (fun w => negb (is_blocked d shiftId s e w)) ids))
      by (rewrite Hu; left; reflexivity).
    apply filter_In in Hin. destruct Hin as [Hin Hb].
    rewrite (Hall u Hin) in Hb. discriminate Hb.
Qed.

Lemma batch_create_all_blocked_witness :
  exists resp dl ol,
    createShiftAssignments 0 (Examples.request 1 [7] 10 (Some 30))
                           Examples.store_closed
    = (resp, Examples.store_closed) /\
    code resp = 400 /\
    Json.keys (body resp)
    = ["status"; "message"; "duplicates"; "overlapping"]%string /\
    Json.get "status" (body resp) = Some (Json.Str "error") /\
    Json.get "duplicates" (body resp) = Some (strings dl) /\
    names dl (fun w => In w [7] /\ is_duplicate Examples.store_closed 1 w = true) /\
    Json.get "overlapping" (body resp) = Some (strings ol) /\
    names ol (fun w => In w [7]
                       /\ is_overlapping Examples.store_closed 10 (Some 30) w = true) /\
    Json.get "data" (body resp) = None /\
    Json.get "created" (body resp) = None /\
    Json.get "skipped" (body resp) = None.
Proof.
  apply (batch_create_all_blocked 0 (Examples.request 1 [7] 10 (Some 30))
           Examples.store_closed 1 1 10 5 [7]).
  - apply accepted_request;
      [reflexivity | left; reflexivity | discriminate | reflexivity].
  - intros w [<-|[]]. reflexivity.
Defined.

End BatchRejection.

Section BatchRepeats.
Import Prisma Controller Plan.

Lemma count_occ_filter (f : Z -> bool) (l : list Z) (w : Z) :
  count_occ Z.eq_dec (filter f l) w
  = if f w then count_occ Z.eq_dec l w else 0%nat.
Proof.
  induction l as [|x l IH]; simpl; [destruct (f w); reflexivity|].
  destruct (f x) eqn:Hx; simpl; destruct (Z.eq_dec x w) as [->|Hne];
    rewrite ?IH; try rewrite Hx; try reflexivity;
    destruct (f w); reflexivity.
Qed.

Lemma inserted_for_worker fresh now shiftId s e role_id notes users w :
  List.length
    (filter (duplicates_on shiftId w)
       (insert_from fresh now
          (assignmentsToCreate shiftId s e role_id notes users)))
  = count_occ Z.eq_dec users w.
Proof.
  revert fresh. induction users as [|u users IH]; intros fresh; simpl;
    [reflexivity|].
  unfold duplicates_on at 1, live, active. simpl.
  rewrite Z.eqb_refl. simpl.
  destruct (Z.eq_dec u w) as [->|Hne].
  - rewrite Z.eqb_refl. simpl. rewrite IH. reflexivity.
  - apply Z.eqb_neq in Hne. rewrite Hne. simpl. apply IH.
Qed.

Lemma not_duplicate_filter (d : db) (shiftId w : Z) :
  is_duplicate d shiftId w = false ->
  filter (duplicates_on shiftId w) (shift_assignments d) = [].
Proof.
  unfold is_duplicate. induction (shift_assignments d) as [|a rows IH];
    simpl; [reflexivity|].
  intros H. apply orb_false_elim in H. destruct H as [Ha Hr].
  rewrite Ha. apply IH, Hr.
Qed.

(** C9. [user_ids] is not deduplicated: on a request that passes validation,
    a requested worker who is not blocked receives one new assignment per
    occurrence in [user_ids], so that afterwards the number of that worker's
    active, non-deleted assignments on the requested shift equals the number
    of occurrences (two or more when the id is repeated). *)
Theorem batch_create_keeps_repeats :
  forall now b d shiftId company_id s role_id ids w,
    accepted b d shiftId company_id s role_id ids ->
    In w ids ->
    is_blocked d shiftId s (CreateBody.endDate b) w = false ->
    exists resp d',
      createShiftAssignments now b d = (resp, d') /\
      code resp = 201 /\
      List.length (filter (duplicates_on shiftId w) (shift_assignments d'))
      = count_occ Z.eq_dec ids w /\
      ((1 < count_occ Z.eq_dec ids w)%nat ->
       (1 < List.length (filter (duplicates_on shiftId w)
                                (shift_assignments d')))%nat).
Proof.
  intros now b d shiftId company_id s role_id ids w Hacc Hin Hw.
  rewrite (createShiftAssignments_accepted now _ _ _ _ _ _ _ Hacc).
  set (e := CreateBody.endDate b) in *.
  destruct (filter (fun w => negb (is_blocked d shiftId s e w)) ids)
    as [|u us] eqn:Hu.
  { assert (Hf : In w (filter (fun w => negb (is_blocked d shiftId s e w)) ids))
      by (apply filter_In; split; [exact Hin | rewrite Hw; reflexivity]).
    rewrite Hu in Hf. destruct Hf. }
  rewrite <- Hu.
  eexists _, _. split; [reflexivity|]. split; [reflexivity|].
  assert (Hlen :
    List.length
      (filter (duplicates_on shiftId w)
         (shift_assignments
            (fst (createMany now
                    (assignmentsToCreate shiftId s e role_id (CreateBody.notes b)
                       (filter (fun w => negb (is_blocked d shiftId s e w)) ids))
                    d))))
    = count_occ Z.eq_dec ids w).
  { cbn [createMany fst shift_assignments].
    rewrite filter_app, length_app, inserted_for_worker, count_occ_filter, Hw.
    unfold is_blocked in Hw. apply orb_false_elim in Hw.
    rewrite (not_duplicate_filter _ _ _ (proj1 Hw)). reflexivity. }
  split; [exact Hlen|]. intros Hrep. rewrite Hlen. exact Hrep.
Qed.

End BatchRepeats.

(* ------------------------------------------------------------------ *)
(** ** Single-record operations *)

Section Mutator.
Import Prisma Controller Plan.

Lemma find_map_same {A} (P : A -> bool) (f : A -> A) (l : list A) :
  (forall x, P (f x) = P x) ->
  find P (map f l) = option_map f (find P l).
Proof.
  intros HP. induction l as [|x l IH]; simpl; [reflexivity|].
  rewrite HP. destruct (P x); [reflexivity | exact IH].
Qed.

Lemma find_assignment_some (i : Z) (d : db) (a : Row.t) :
  find_assignment i d = Some a ->
  In a (shift_assignments d) /\ Row.id a = i /\ Row.deleted_at a = None.
Proof.
  unfold find_assignment, findFirst. intros H. apply find_some in H.
  destruct H as [Hin Hp]. split_andb. split; [exact Hin|]. split.
  - apply Z.eqb_eq. assumption.
  - destruct (Row.deleted_at a); [discriminate | reflexivity].
Qed.

(** [update] succeeds on an id that [find_assignment] resolves, and
    rewrites the rows of that id. *)
Lemma update_some (i : Z) (p : Row.data) (d : db) (a : Row.t) :
  find_assignment i d = Some a ->
  exists d' u,
    update i p d = Some (d', u) /\
    shifts d' = shifts d /\ next_id d' = next_id d /\
    shift_assignments d'
    = map (fun r => if has_id i r then Row.apply p r else r)
          (shift_assignments d).
Proof.
  intros H. apply find_assignment_some in H. destruct H as (Hin & Hid & _).
  unfold update.
  destruct (find (has_id i) (shift_assignments d)) as [a0|] eqn:Hf.
  - eexists _, _. repeat split.
  - exfalso. apply (find_none _ _ Hf) in Hin. unfold has_id in Hin.
    rewrite Hid, Z.eqb_refl in Hin. discriminate Hin.
Qed.

Lemma find_assignment_rewritten (i : Z) (p : Row.data) (rows : list Row.t) :
  Row.set_deleted_at p = None ->
  find (fun a => has_id i a && is_null (Row.deleted_at a))
       (map (fun r => if has_id i r then Row.apply p r else r) rows)
  = option_map (fun r => if has_id i r then Row.apply p r else r)
               (find (fun a => has_id i a && is_null (Row.deleted_at a)) rows).
Proof.
  intros Hp. apply find_map_same. intros r.
  destruct (has_id i r) eqn:Hr; [|rewrite Hr; reflexivity].
  unfold has_id in *. simpl. rewrite Hr, Hp. reflexivity.
Qed.

Lemma find_assignment_after_update (i : Z) (p : Row.data) (d d' : db)
    (a u : Row.t) :
  Row.set_deleted_at p = None ->
  find_assignment i d = Some a ->
  update i p d = Some (d', u) ->
  find_assignment i d' = Some (Row.apply p a).
Proof.
  intros Hp Ha Hu. destruct (update_some i p d a Ha) as (d1 & u1 & Hu1 & _ & _ & Hrows).
  rewrite Hu in Hu1. injection Hu1 as -> ->.
  unfold find_assignment, findFirst in *. rewrite Hrows.
  rewrite find_assignment_rewritten by exact Hp.
  rewrite Ha. simpl.
  apply find_some in Ha. destruct Ha as [_ Ha]. split_andb.
  use_true.
Qed.

(** C7. On an existing, non-deleted assignment: the range that is checked
    and written takes [startDate] and [endDate] from the request where
    present and from the stored record otherwise; when the resulting
    [endDate] is earlier than the resulting [startDate] the handler answers
    400 "endDate cannot be before startDate." and leaves the store as it
    was; whatever the answer, every column whose field the request omits
    keeps its stored value; and when the range is in order and the overlap
    check finds nothing the handler answers 200 and the stored record holds
    the requested value in each column the request names. *)
Theorem update_defaults_and_range_check :
  forall i b d a,
    find_assignment i d = Some a ->
    let s := requested_or (UpdateBody.startDate b) (Row.startDate a) in
    let e := requested_or_null (UpdateBody.endDate b) (Row.endDate a) in
    (forall x, e = Some x -> x < s ->
       updateShiftAssignment (Some i) b d
       = (error 400 "endDate cannot be before startDate.", d))
    /\
    (forall resp d',
       updateShiftAssignment (Some i) b d = (resp, d') ->
       exists u,
         find_assignment i d' = Some u /\
         (UpdateBody.startDate b = None -> Row.startDate u = Row.startDate a) /\
         (UpdateBody.endDate b = None -> Row.endDate u = Row.endDate a) /\
         (UpdateBody.status b = None -> Row.status u = Row.status a) /\
         (UpdateBody.notes b = None -> Row.notes u = Row.notes a) /\
         (UpdateBody.role_id b = None -> Row.role_id u = Row.role_id a) /\
         Row.id u = Row.id a /\ Row.shiftId u = Row.shiftId a /\
         Row.user_id u = Row.user_id a /\ Row.createdAt u = Row.createdAt a /\
         Row.deleted_at u = Row.deleted_at a)
    /\
    ((forall x, e = Some x -> s <= x) ->
     overlapping d i a s e = None ->
     exists resp d' u,
       updateShiftAssignment (Some i) b d = (resp, d') /\
       code resp = 200 /\
       find_assignment i d' = Some u /\
       Row.startDate u = s /\ Row.endDate u = e /\
       Row.status u = requested_or (UpdateBody.status b) (Row.status a) /\
       Row.notes u = requested_or_null (UpdateBody.notes b) (Row.notes a) /\
       Row.role_id u = requested_or (UpdateBody.role_id b) (Row.role_id a)).
Proof.
  intros i b d a Ha s e.
  assert (Hs : parsedStart_of b a = s) by reflexivity.
  assert (He : parsedEnd_of b a = e) by reflexivity.
  split; [|split].
  - intros x Hx Hlt. unfold updateShiftAssignment. rewrite Ha, Hs, He, Hx.
    unfold end_before_start. apply Z.ltb_lt in Hlt. rewrite Hlt. reflexivity.
  - intros resp d' H. unfold updateShiftAssignment in H. rewrite Ha in H.
    assert (Hsame : exists u,
      find_assignment i d = Some u /\
      (UpdateBody.startDate b = None -> Row.startDate u = Row.startDate a) /\
      (UpdateBody.endDate b = None -> Row.endDate u = Row.endDate a) /\
      (UpdateBody.status b = None -> Row.status u = Row.status a) /\
      (UpdateBody.notes b = None -> Row.notes u = Row.notes a) /\
      (UpdateBody.role_id b = None -> Row.role_id u = Row.role_id a) /\
      Row.id u = Row.id a /\ Row.shiftId u = Row.shiftId a /\
      Row.user_id u = Row.user_id a /\ Row.createdAt u = Row.createdAt a /\
      Row.deleted_at u = Row.deleted_at a)
      by (exists a; split; [exact Ha | repeat split; intros; reflexivity]).
    destruct (end_before_start (parsedEnd_of b a) (parsedStart_of b a));
      [injection H as _ <-; exact Hsame|].
    destruct (overlapping d i a (parsedStart_of b a) (parsedEnd_of b a));
      [injection H as _ <-; exact Hsame|].
    destruct (update i (update_data b a) d) as [[d1 u1]|] eqn:Hu;
      [|injection H as _ <-; exact Hsame].
    injection H as _ <-.
    exists (Row.apply (update_data b a) a). split.
    + eapply find_assignment_after_update; [reflexivity | exact Ha | exact Hu].
    + unfold update_data, parsedStart_of, parsedEnd_of. simpl.
      repeat split; intros ->; reflexivity.
  - intros Hord Hnone. unfold updateShiftAssignment. rewrite Ha, Hs, He, Hnone.
    assert (Hr : end_before_start e s = false).
    { unfold end_before_start. destruct e as [x|]; [|reflexivity].
      apply Z.ltb_ge. apply Hord. reflexivity. }
    rewrite Hr.
    destruct (update_some i (update_data b a) d a Ha) as (d1 & u1 & Hu & _).
    rewrite Hu. eexists _, _, (Row.apply (update_data b a) a).
    split; [reflexivity|]. split; [reflexivity|]. split.
    + eapply find_assignment_after_update; [reflexivity | exact Ha | exact Hu].
    + repeat split.
Qed.

Lemma update_conflict_rejected (i : Z) (b : UpdateBody.t) (d : db)
    (a r : Row.t) :
  find_assignment i d = Some a ->
  end_before_start (parsedEnd_of b a) (parsedStart_of b a) = false ->
  overlapping d i a (parsedStart_of b a) (parsedEnd_of b a) = Some r ->
  updateShiftAssignment (Some i) b d
  = (error 400 "User already has an overlapping active shift.", d).
Proof.
  intros Ha Hr Ho. unfold updateShiftAssignment. rewrite Ha, Hr, Ho.
  reflexivity.
Qed.

Lemma status_rewrite_only_status (i : Z) (st : string) (rows : list Row.t) :
  Forall2 (fun r r' => same_but_status r r' /\ (Row.id r <> i -> r' = r))
          rows
          (map (fun r => if has_id i r then Row.apply (status_data st) r else r)
               rows).
Proof.
  induction rows as [|r rows IH]; simpl; constructor; [|exact IH].
  unfold has_id. destruct (Z.eqb_spec (Row.id r) i) as [E|N].
  - split; [repeat split | intros N; contradiction].
  - split; [repeat split | reflexivity].
Qed.

Lemma newStatus_flip (a : Row.t) :
  Row.status a = "active"%string \/ Row.status a = "inactive"%string ->
  newStatus (Row.apply (status_data (newStatus a)) a) = Row.status a.
Proof.
  unfold newStatus. intros [H|H]; rewrite H; reflexivity.
Qed.

Lemma apply_status_back (a : Row.t) (st : string) :
  Row.apply (status_data (Row.status a)) (Row.apply (status_data st) a) = a.
Proof. destruct a; reflexivity. Qed.

(** C8. On an existing, non-deleted assignment whose status is [active] or
    [inactive], [toggleShiftAssignmentStatus] answers 200 whatever the other
    records of the worker are (no range is looked at), flips the status and
    changes no other column and no other record; a second toggle brings the
    record back to what it was. *)
Theorem toggle_twice_restores_status :
  forall i d a,
    find_assignment i d = Some a ->
    Row.status a = "active"%string \/ Row.status a = "inactive"%string ->
    exists r1 d1 a1 r2 d2,
      toggleShiftAssignmentStatus (Some i) d = (r1, d1) /\
      code r1 = 200 /\
      find_assignment i d1 = Some a1 /\
      Row.status a1 <> Row.status a /\
      (Row.status a1 = "active"%string \/ Row.status a1 = "inactive"%string) /\
      same_but_status a a1 /\
      only_status_changed i d d1 /\
      toggleShiftAssignmentStatus (Some i) d1 = (r2, d2) /\
      code r2 = 200 /\
      find_assignment i d2 = Some a /\
      only_status_changed i d1 d2.
Proof.
  intros i d a Ha Hst.
  destruct (update_some i (status_data (newStatus a)) d a Ha)
    as (d1 & u1 & Hu1 & Hsh1 & Hn1 & Hrows1).
  set (a1 := Row.apply (status_data (newStatus a)) a).
  assert (Ha1 : find_assignment i d1 = Some a1)
    by (eapply find_assignment_after_update; [reflexivity | exact Ha | exact Hu1]).
  destruct (update_some i (status_data (newStatus a1)) d1 a1 Ha1)
    as (d2 & u2 & Hu2 & Hsh2 & Hn2 & Hrows2).
  exists (updated_ok "Shift assignment status updated successfully." u1), d1, a1,
    (updated_ok "Shift assignment status updated successfully." u2), d2.
  split; [unfold toggleShiftAssignmentStatus; rewrite Ha, Hu1; reflexivity|].
  split; [reflexivity|].
  split; [exact Ha1|].
  split; [unfold a1, newStatus; simpl; destruct Hst as [H|H]; rewrite H;
          simpl; discriminate|].
  split; [unfold a1, newStatus; simpl; destruct Hst as [H|H]; rewrite H;
          simpl; [right|left]; reflexivity|].
  split; [repeat split|].
  split; [split; [exact Hsh1|]; split; [exact Hn1|]; rewrite Hrows1;
          apply status_rewrite_only_status|].
  split; [unfold toggleShiftAssignmentStatus; rewrite Ha1, Hu2; reflexivity|].
  split; [reflexivity|].
  split.
  - rewrite (find_assignment_after_update i (status_data (newStatus a1))
               d1 d2 a1 u2 eq_refl Ha1 Hu2).
    unfold a1 at 1. rewrite newStatus_flip by exact Hst.
    unfold a1. rewrite apply_status_back. reflexivity.
  - split; [exact Hsh2|]. split; [exact Hn2|]. rewrite Hrows2.
    apply status_rewrite_only_status.
Qed.

Lemma blocked_after_rewrite (i : Z) (p : Row.data) (now : Z)
    (rows : list Row.t) (P : Row.t -> bool) :
  Row.set_deleted_at p = Some (Some now) ->
  (forall r, P r = true -> live r = true) ->
  (forall r, In r rows -> P r = true -> Row.id r = i) ->
  existsb P (map (fun r => if has_id i r then Row.apply p r else r) rows)
  = false.
Proof.
  intros Hp Hlive Honly.
  induction rows as [|r rows IH]; simpl; [reflexivity|].
  rewrite IH by (intros x Hx; apply Honly; right; exact Hx).
  rewrite orb_false_r. unfold has_id.
  destruct (Z.eqb_spec (Row.id r) i) as [E|N].
  - destruct (P (Row.apply p r)) eqn:HP; [|reflexivity].
    apply Hlive in HP. unfold live in HP. simpl in HP. rewrite Hp in HP.
    simpl in HP. rewrite andb_false_r in HP. discriminate HP.
  - destruct (P r) eqn:HP; [|reflexivity].
    exfalso. apply N. apply Honly; [left; reflexivity | exact HP].
Qed.

Lemma live_after_delete (i : Z) (now : Z) (rows : list Row.t) (r' : Row.t) :
  In r' (map (fun r => if has_id i r then Row.apply (delete_data now) r else r)
             rows) ->
  (Row.id r' = i ->
   Row.deleted_at r' = Some now /\ Row.status r' = "inactive"%string)
  /\ (live r' = true -> Row.id r' <> i).
Proof.
  intros Hin. apply in_map_iff in Hin. destruct Hin as (r & <- & _).
  unfold has_id. destruct (Z.eqb_spec (Row.id r) i) as [E|N].
  - split; [intros _; split; reflexivity|].
    unfold live. simpl. rewrite ?andb_false_r. discriminate.
  - split; [intros E; contradiction | intros _; exact N].
Qed.

Lemma find_all_false {A} (P : A -> bool) (l : list A) :
  (forall x, In x l -> P x = false) -> find P l = None.
Proof.
  intros H. destruct (find P l) as [x|] eqn:Hf; [|reflexivity].
  apply find_some in Hf. destruct Hf as [Hin Hp].
  rewrite (H x Hin) in Hp. discriminate Hp.
Qed.

(** C6. Deleting an existing, non-deleted assignment answers 200, keeps the
    record with [deleted_at] set to the current time and [status] forced to
    [inactive] (every other column as it was, no row removed); deleting the
    same id again answers 404 and changes nothing; no query of the conflict
    detector (same-shift, overlap of a batch, overlap of an update) returns
    the deleted record any more; and a worker whom only that record blocked
    for a shift and range is not blocked afterwards and is kept by
    [usersToAssign]. *)
Theorem soft_delete_excludes_from_checks :
  forall now i d a,
    find_assignment i d = Some a ->
    exists resp d1 a',
      deleteShiftAssignment now (Some i) d = (resp, d1) /\
      code resp = 200 /\
      In a' (shift_assignments d1) /\
      Row.deleted_at a' = Some now /\
      Row.status a' = "inactive"%string /\
      (Row.id a' = Row.id a /\ Row.shiftId a' = Row.shiftId a /\
       Row.user_id a' = Row.user_id a /\ Row.role_id a' = Row.role_id a /\
       Row.startDate a' = Row.startDate a /\ Row.endDate a' = Row.endDate a /\
       Row.notes a' = Row.notes a /\ Row.createdAt a' = Row.createdAt a) /\
      (forall r, In r (shift_assignments d1) -> Row.id r = i ->
                 Row.deleted_at r = Some now
                 /\ Row.status r = "inactive"%string) /\
      List.length (shift_assignments d1) = List.length (shift_assignments d) /\
      (forall now',
          deleteShiftAssignment now' (Some i) d1 = (not_found, d1)) /\
      code not_found = 404 /\
      (forall shiftId ids,
          Forall (fun r => Row.id r <> i) (existingSameShift d1 shiftId ids)) /\
      (forall ids s e,
          Forall (fun r => Row.id r <> i) (overlappingAssignments d1 ids s e)) /\
      (forall j x s e r, overlapping d1 j x s e = Some r -> Row.id r <> i) /\
      (forall shiftId s e w,
          (forall r, In r (shift_assignments d) ->
                     duplicates_on shiftId w r = true
                     \/ overlaps_with s e w r = true ->
                     Row.id r = i) ->
          is_blocked d1 shiftId s e w = false /\
          forall ids, In w ids ->
            In w (usersToAssign ids
                    (blockedUserIds (duplicateUserIds d1 shiftId ids)
                                    (overlappingUserIds d1 ids s e)))).
Proof.
  intros now i d a Ha.
  destruct (update_some i (delete_data now) d a Ha)
    as (d1 & u1 & Hu & _ & _ & Hrows).
  destruct (find_assignment_some i d a Ha) as (Hin & Hid & Hdel).
  assert (Hlive : forall r, In r (shift_assignments d1) ->
                            live r = true -> Row.id r <> i).
  { intros r Hr. rewrite Hrows in Hr.
    apply (live_after_delete i now _ r Hr). }
  exists (Response 200
            (Json.Obj
               [("status", Json.Str "success");
                ("message",
                 Json.Str "Shift assignment deleted successfully.")]%string)),
    d1, (Row.apply (delete_data now) a).
  split; [unfold deleteShiftAssignment; rewrite Ha, Hu; reflexivity|].
  split; [reflexivity|].
  split.
  { rewrite Hrows. apply in_map_iff. exists a. split; [|exact Hin].
    unfold has_id. rewrite Hid, Z.eqb_refl. reflexivity. }
  split; [reflexivity|]. split; [reflexivity|].
  split; [repeat split|].
  split.
  { intros r Hr. rewrite Hrows in Hr.
    apply (live_after_delete i now _ r Hr). }
  split; [rewrite Hrows; apply length_map|].
  split.
  { intros now'. unfold deleteShiftAssignment.
    replace (find_assignment i d1) with (@None Row.t); [reflexivity|].
    symmetry. apply find_all_false. intros r Hr.
    rewrite Hrows in Hr.
    destruct (live_after_delete i now _ r Hr) as [Hd _].
    unfold has_id. destruct (Z.eqb_spec (Row.id r) i) as [E|N]; [|reflexivity].
    destruct (Hd E) as [-> _]. reflexivity. }
  split; [reflexivity|].
  split.
  { intros shiftId ids. apply Forall_forall. intros r Hr.
    apply filter_In in Hr. destruct Hr as [Hr Hp]. split_andb.
    apply Hlive; [exact Hr|]. unfold live. use_true. }
  split.
  { intros ids s e. apply Forall_forall. intros r Hr.
    apply filter_In in Hr. destruct Hr as [Hr Hp]. split_andb.
    apply Hlive; [exact Hr|]. unfold live. use_true. }
  split.
  { intros j x s e r Hr. apply find_some in Hr. destruct Hr as [Hr Hp].
    split_andb. apply Hlive; [exact Hr|]. unfold live. use_true. }
  intros shiftId s e w Honly.
  assert (Hb : is_blocked d1 shiftId s e w = false).
  { unfold is_blocked, is_duplicate, is_overlapping. rewrite Hrows.
    rewrite (blocked_after_rewrite i (delete_data now) now), (blocked_after_rewrite i (delete_data now) now);
      try reflexivity.
    - intros r Hp. unfold overlaps_with in Hp. split_andb. assumption.
    - intros r Hr Hp. apply Honly; [exact Hr | right; exact Hp].
    - intros r Hp. unfold duplicates_on in Hp. split_andb. assumption.
    - intros r Hr Hp. apply Honly; [exact Hr | left; exact Hp]. }
  split; [exact Hb|].
  intros ids Hw. rewrite usersToAssign_spec. apply filter_In.
  split; [exact Hw | rewrite Hb; reflexivity].
Qed.

End Mutator.

(* ------------------------------------------------------------------ *)
(** ** The overlap query against section 4.1 *)

Section Detector.
Import Prisma Controller Plan.

(** Whatever the query reports does overlap in the sense of section 4.1,
    for a candidate whose end is not before its start. *)
Lemma overlap_where_sound (s : Z) (e : option Z) (a : Row.t) :
  TimeRange.valid (TimeRange.Make s e) ->
  overlap_where s e a = true ->
  TimeRange.overlaps (TimeRange.Make s e) (TimeRange.of_row a) = true.
Proof.
  unfold TimeRange.valid, overlap_where, TimeRange.overlaps, TimeRange.le_or_inf,
    lte, gte_nullable, is_null, Row.or_keep. simpl.
  destruct (Row.endDate a) as [x|], e as [y|]; simpl; intros Hv H;
    rewrite ?andb_false_r, ?andb_true_r, ?orb_false_r in *;
    try reflexivity; try discriminate.
  - rewrite andb_comm. exact H.
  - apply andb_prop in H. apply H.
  - apply Z.leb_le in H. apply Z.leb_le. lia.
Qed.

(** The query and section 4.1 agree on a stored range that has an end
    (and starts no later than the far-future bound when the candidate is
    open-ended), and on an open-ended stored range that starts no later
    than the candidate. *)
Lemma overlap_where_agrees (s : Z) (e : option Z) (a : Row.t) :
  TimeRange.valid (TimeRange.Make s e) ->
  match Row.endDate a, e with
  | Some _, Some _ => True
  | Some _, None => Row.startDate a <= far_future
  | None, _ => Row.startDate a <= s
  end ->
  overlap_where s e a
  = TimeRange.overlaps (TimeRange.Make s e) (TimeRange.of_row a).
Proof.
  unfold TimeRange.valid, overlap_where, TimeRange.overlaps, TimeRange.le_or_inf,
    lte, gte_nullable, is_null, Row.or_keep. simpl.
  destruct (Row.endDate a) as [x|], e as [y|]; simpl; intros Hv H;
    rewrite ?andb_false_r, ?andb_true_r, ?orb_false_r.
  - apply andb_comm.
  - apply Z.leb_le in H. rewrite H. reflexivity.
  - apply Z.leb_le in H. rewrite H. symmetry. apply Z.leb_le. lia.
  - apply Z.leb_le. exact H.
Qed.

(** Exactly what the query computes, in terms of section 4.1: the overlap
    test, except that an open-ended stored range is reported only when it
    starts no later than the candidate. *)
Lemma overlap_where_exact (s : Z) (e : option Z) (a : Row.t) :
  TimeRange.valid (TimeRange.Make s e) ->
  (e = None -> Row.startDate a <= far_future) ->
  overlap_where s e a
  = TimeRange.overlaps (TimeRange.Make s e) (TimeRange.of_row a)
    && (negb (is_null (Row.endDate a)) || (Row.startDate a <=? s)).
Proof.
  unfold TimeRange.valid, overlap_where, TimeRange.overlaps, TimeRange.le_or_inf,
    lte, gte_nullable, is_null, Row.or_keep. simpl.
  destruct (Row.endDate a) as [x|], e as [y|]; simpl; intros Hv Hfar;
    rewrite ?andb_false_r, ?andb_true_r, ?orb_false_r.
  - apply andb_comm.
  - specialize (Hfar eq_refl). apply Z.leb_le in Hfar. rewrite Hfar.
    reflexivity.
  - destruct (Z.leb_spec (Row.startDate a) s) as [H|H].
    + rewrite andb_true_r. symmetry. apply Z.leb_le. lia.
    + rewrite andb_false_r. reflexivity.
  - reflexivity.
Qed.

(** The family of missed overlaps: a stored open-ended range that starts
    after the candidate's start and no later than its end. *)
Lemma overlap_where_misses (s : Z) (e : option Z) (a : Row.t) :
  Row.endDate a = None ->
  s < Row.startDate a ->
  TimeRange.le_or_inf (Row.startDate a) e = true ->
  TimeRange.overlaps (TimeRange.Make s e) (TimeRange.of_row a) = true
  /\ overlap_where s e a = false.
Proof.
  intros Hend Hlt Hle.
  unfold overlap_where, TimeRange.overlaps, TimeRange.of_row, lte, gte_nullable.
  simpl. rewrite Hend, Hle. simpl. split; [reflexivity|].
  rewrite andb_false_r, andb_true_r. simpl. apply Z.leb_gt. exact Hlt.
Qed.

(** C1. The overlap query misses a stored open-ended assignment that starts
    after the candidate's start: worker 7 holds an active assignment from 10
    with no end; the candidate [[5, 20]] overlaps it by section 4.1, yet the
    query's condition is false on it, the detector reports no overlapping
    worker, and the batch is created. *)
Theorem detector_misses_later_open_ended :
  let candidate := TimeRange.Make 5 (Some 20) in
  TimeRange.valid candidate /\
  live Examples.open_ended = true /\
  TimeRange.overlaps candidate (TimeRange.of_row Examples.open_ended) = true /\
  overlap_where 5 (Some 20) Examples.open_ended = false /\
  overlappingUserIds Examples.store_open [7] 5 (Some 20) = [] /\
  is_overlapping Examples.store_open 5 (Some 20) 7 = false /\
  exists d',
    createShiftAssignments 0 (Examples.request 2 [7] 5 (Some 20))
                           Examples.store_open
    = (created 1 0 [] [], d') /\
    shift_assignments d'
    = [Examples.open_ended; Examples.assignment 2 2 7 5 (Some 20) "active"].
Proof.
  cbv zeta. split; [unfold TimeRange.valid; simpl; lia|].
  repeat (split; [reflexivity|]).
  eexists. split; reflexivity.
Qed.

(** C5. The detector's relation is not symmetric: with A = [[5, 20]] and
    B = [[10, unbounded)], B is not reported against candidate A, while A is
    reported against candidate B. *)
Theorem detector_overlap_not_symmetric :
  let A := Examples.assignment 1 1 7 5 (Some 20) "active" in
  let B := Examples.open_ended in
  TimeRange.valid (TimeRange.of_row A) /\
  TimeRange.valid (TimeRange.of_row B) /\
  detector_overlaps A B = false /\
  detector_overlaps B A = true /\
  TimeRange.overlaps (TimeRange.of_row A) (TimeRange.of_row B) = true /\
  TimeRange.overlaps (TimeRange.of_row B) (TimeRange.of_row A) = true.
Proof.
  cbv zeta. split; [unfold TimeRange.valid; simpl; lia|]. split; [exact I|].
  repeat split.
Qed.

(** C4. An update whose resulting range overlaps another active assignment
    of the worker is not always rejected: worker 7 holds [[1, 3]] (id 1) and
    an open-ended assignment from 10 (id 2); extending id 1 to end at 20
    overlaps id 2 by section 4.1, yet the handler answers 200 and writes the
    new end date. *)
Theorem update_accepts_overlap_with_later_open_ended :
  let d := Examples.store_two in
  exists a other resp d' u,
    find_assignment 1 d = Some a /\
    In other (shift_assignments d) /\
    Row.id other <> 1 /\
    Row.user_id other = Row.user_id a /\
    live other = true /\
    TimeRange.overlaps (TimeRange.Make (Row.startDate a) (Some 20))
                       (TimeRange.of_row other) = true /\
    updateShiftAssignment (Some 1) (Examples.extend_to 20) d = (resp, d') /\
    code resp = 200 /\
    find_assignment 1 d' = Some u /\
    Row.endDate a = Some 3 /\
    Row.endDate u = Some 20.
Proof.
  cbv zeta.
  exists (Examples.assignment 1 1 7 1 (Some 3) "active"),
    (Examples.assignment 2 2 7 10 None "active").
  eexists _, _, _.
  split; [reflexivity|].
  split; [right; left; reflexivity|].
  split; [discriminate|].
  repeat (split; [reflexivity|]).
  reflexivity.
Qed.

End Detector.

(* ------------------------------------------------------------------ *)
(** ** The theorems at concrete stores *)

Section Instances.
Import Prisma Controller Plan.

Lemma batch_create_keeps_repeats_witness :
  exists resp d',
    createShiftAssignments 0 (Examples.request 2 [8; 8] 40 (Some 50))
                           Examples.store_closed = (resp, d') /\
    code resp = 201 /\
    List.length (filter (duplicates_on 2 8) (shift_assignments d')) = 2%nat.
Proof.
  assert (Hacc : accepted (Examples.request 2 [8; 8] 40 (Some 50))
                          Examples.store_closed 2 1 40 5 [8; 8]).
  { apply accepted_request;
      [reflexivity | right; reflexivity | discriminate | reflexivity]. }
  destruct (batch_create_keeps_repeats 0 _ _ _ _ _ _ _ 8 Hacc
              (or_introl eq_refl) eq_refl)
    as (resp & d' & H1 & H2 & H3 & _).
  exists resp, d'. repeat split; assumption.
Defined.

Lemma update_defaults_and_range_check_witness :
  updateShiftAssignment (Some 1) (Examples.move_to 40 35) Examples.store_closed
  = (error 400 "endDate cannot be before startDate.", Examples.store_closed)
  /\
  exists resp d' u,
    updateShiftAssignment (Some 1) (Examples.extend_to 50) Examples.store_closed
    = (resp, d') /\
    code resp = 200 /\
    find_assignment 1 d' = Some u /\
    Row.startDate u = 10 /\ Row.endDate u = Some 50 /\
    Row.status u = "active"%string.
Proof.
  split.
  - apply (proj1 (update_defaults_and_range_check 1 (Examples.move_to 40 35)
                   Examples.store_closed Examples.closed eq_refl) 35);
      [reflexivity | apply Z.ltb_lt; reflexivity].
  - destruct (proj2 (proj2 (update_defaults_and_range_check 1
                              (Examples.extend_to 50) Examples.store_closed
                              Examples.closed eq_refl)))
      as (resp & d' & u & H1 & H2 & H3 & H4 & H5 & H6 & _).
    + intros x [= <-]. apply Z.leb_le. reflexivity.
    + reflexivity.
    + exists resp, d', u. repeat split; assumption.
Defined.

Lemma toggle_twice_restores_status_witness :
  exists r1 d1 a1 r2 d2,
    toggleShiftAssignmentStatus (Some 1) Examples.store_closed = (r1, d1) /\
    code r1 = 200 /\
    find_assignment 1 d1 = Some a1 /\
    Row.status a1 <> "active"%string /\
    toggleShiftAssignmentStatus (Some 1) d1 = (r2, d2) /\
    code r2 = 200 /\
    find_assignment 1 d2 = Some Examples.closed.
Proof.
  destruct (toggle_twice_restores_status 1 Examples.store_closed
              Examples.closed eq_refl (or_introl eq_refl))
    as (r1 & d1 & a1 & r2 & d2 & H1 & H2 & H3 & H4 & _ & _ & _ & H8 & H9 & H10 & _).
  exists r1, d1, a1, r2, d2. repeat split; assumption.
Defined.

Lemma soft_delete_excludes_from_checks_witness :
  exists resp d1,
    deleteShiftAssignment 5 (Some 1) Examples.store_closed = (resp, d1) /\
    code resp = 200 /\
    (forall now', deleteShiftAssignment now' (Some 1) d1 = (not_found, d1)) /\
    is_blocked Examples.store_closed 1 10 (Some 30) 7 = true /\
    is_blocked d1 1 10 (Some 30) 7 = false.
Proof.
  destruct (soft_delete_excludes_from_checks 5 1 Examples.store_closed
              Examples.closed eq_refl)
    as (resp & d1 & a' & H1 & H2 & _ & _ & _ & _ & _ & _ & H9 & _ & _ & _ & _
        & H14).
  exists resp, d1. split; [exact H1|]. split; [exact H2|].
  split; [exact H9|]. split; [reflexivity|].
  apply (H14 1 10 (Some 30) 7).
  intros r [<-|[]] _. reflexivity.
Defined.

End Instances.

(* ------------------------------------------------------------------ *)
(** ** What the writing routes keep *)

Section Writes.
Import Prisma Controller Plan Routes.

(** The two ways [createShiftAssignments] ends: a 400 or 404 with the store
    untouched, or the insertion of the non-blocked entries. *)
Lemma create_cases (now : Z) (b : CreateBody.t) (d : db) :
  (snd (createShiftAssignments now b d) = d /\
   (code (fst (createShiftAssignments now b d)) = 400
    \/ code (fst (createShiftAssignments now b d)) = 404))
  \/
  exists shiftId company_id s role_id ids,
    accepted b d shiftId company_id s role_id ids /\
    let e := CreateBody.endDate b in
    let users := filter (fun w => negb (is_blocked d shiftId s e w)) ids in
    users <> [] /\
    createShiftAssignments now b d
    = (created (Z.of_nat (List.length users))
               (Z.of_nat (List.length ids) - Z.of_nat (List.length users))
               (duplicateUserIds d shiftId ids)
               (overlappingUserIds d ids s e),
       fst (createMany now
              (assignmentsToCreate shiftId s e role_id (CreateBody.notes b)
                                   users) d)).
Proof.
  destruct (CreateBody.shiftId b) as [shiftId|] eqn:E1;
    [|left; unfold createShiftAssignments; rewrite E1; split;
      [reflexivity | left; reflexivity]].
  destruct (CreateBody.company_id b) as [company_id|] eqn:E2;
    [|left; unfold createShiftAssignments; rewrite E1, E2; split;
      [reflexivity | left; reflexivity]].
  destruct (CreateBody.startDate b) as [s|] eqn:E3;
    [|left; unfold createShiftAssignments; rewrite E1, E2, E3; split;
      [reflexivity | left; reflexivity]].
  destruct (CreateBody.role_id b) as [role_id|] eqn:E4;
    [|left; unfold createShiftAssignments; rewrite E1, E2, E3, E4; split;
      [reflexivity | left; reflexivity]].
  destruct (CreateBody.user_ids b) as [ids|] eqn:E5;
    [|left; unfold createShiftAssignments; rewrite E1, E2, E3, E4, E5; split;
      [reflexivity | left; reflexivity]].
  destruct (Z.eqb_spec shiftId 0) as [Z1|N1];
    [left; unfold createShiftAssignments; rewrite E1, E2, E3, E4, E5; subst;
     split; [reflexivity | left; reflexivity]|].
  destruct (Z.eqb_spec company_id 0) as [Z2|N2];
    [left; unfold createShiftAssignments, falsy;
     rewrite E1, E2, E3, E4, E5; subst; rewrite orb_true_r; split;
     [reflexivity | left; reflexivity]|].
  destruct (Z.eqb_spec role_id 0) as [Z3|N3];
    [left; unfold createShiftAssignments, falsy;
     rewrite E1, E2, E3, E4, E5; subst; rewrite !orb_true_r; split;
     [reflexivity | left; reflexivity]|].
  destruct ids as [|w0 ids0] eqn:Eids;
    [left; unfold createShiftAssignments, falsy, no_items;
     rewrite E1, E2, E3, E4, E5; rewrite !orb_true_r; split;
     [reflexivity | left; reflexivity]|].
  rewrite <- Eids in *.
  destruct (end_before_start (CreateBody.endDate b) s) eqn:Er.
  { left. unfold createShiftAssignments, falsy, no_items.
    rewrite E1, E2, E3, E4, E5, Eids.
    apply Z.eqb_neq in N1, N2, N3. rewrite N1, N2, N3. cbn [orb].
    rewrite Er. split; [reflexivity | left; reflexivity]. }
  destruct (findFirst (shift_where shiftId company_id) (shifts d)) eqn:Ef.
  2:{ left. unfold createShiftAssignments, falsy, no_items.
      rewrite E1, E2, E3, E4, E5, Eids.
      apply Z.eqb_neq in N1, N2, N3. rewrite N1, N2, N3. cbn [orb].
      rewrite Er, Ef. split; [reflexivity | right; reflexivity]. }
  assert (Hacc : accepted b d shiftId company_id s role_id ids).
  { constructor; try assumption.
    - repeat split; assumption.
    - rewrite Eids. discriminate.
    - rewrite Ef. discriminate. }
  pose proof (createShiftAssignments_accepted now b d _ _ _ _ _ Hacc) as H.
  cbv zeta in H.
  destruct (filter (fun w => negb (is_blocked d shiftId s (CreateBody.endDate b) w))
                   ids) as [|u us] eqn:Hu.
  - left. rewrite H. split; [reflexivity | left; reflexivity].
  - right. exists shiftId, company_id, s, role_id, ids.
    split; [exact Hacc|]. cbv zeta. rewrite Hu.
    split; [discriminate | exact H].
Qed.

Lemma update_rows (i : Z) (p : Row.data) (d d' : db) (u : Row.t) :
  update i p d = Some (d', u) ->
  shifts d' = shifts d /\ next_id d' = next_id d /\
  shift_assignments d'
  = map (fun r => if has_id i r then Row.apply p r else r)
        (shift_assignments d).
Proof.
  unfold update. destruct (find (has_id i) (shift_assignments d));
    [|discriminate]. intros [= <- _]. repeat split.
Qed.

(** The ways a route other than [POST /] ends: the store untouched, or the
    rows of one id rewritten with the data of that route. *)
Lemma mutation_cases (r : request) (d : db) :
  (forall now b, r <> Post now b) ->
  snd (shiftAssign_router r d) = d
  \/
  exists i a p u,
    find_assignment i d = Some a /\
    update i p d = Some (snd (shiftAssign_router r d), u) /\
    ((exists b, r = Put (Some i) b /\ p = update_data b a
                /\ end_before_start (parsedEnd_of b a) (parsedStart_of b a)
                   = false
                /\ overlapping d i a (parsedStart_of b a) (parsedEnd_of b a)
                   = None)
     \/ (r = Patch (Some i) /\ p = status_data (newStatus a))
     \/ (exists now, r = Delete now (Some i) /\ p = delete_data now)).
Proof.
  intros Hpost. destruct r as [now b|[i|] b|[i|]|now [i|]];
    try (left; reflexivity).
  - exfalso. apply (Hpost now b). reflexivity.
  - simpl. unfold updateShiftAssignment.
    destruct (find_assignment i d) as [a|] eqn:Ha; [|left; reflexivity].
    destruct (end_before_start _ _) eqn:Er; [left; reflexivity|].
    destruct (overlapping d i a _ _) eqn:Ho; [left; reflexivity|].
    destruct (update i (update_data b a) d) as [[d1 u1]|] eqn:Hu;
      [|left; reflexivity].
    right. exists i, a, (update_data b a), u1.
    split; [exact Ha|]. split; [exact Hu|].
    left. exists b. repeat split; assumption.
  - simpl. unfold toggleShiftAssignmentStatus.
    destruct (find_assignment i d) as [a|] eqn:Ha; [|left; reflexivity].
    destruct (update i (status_data (newStatus a)) d) as [[d1 u1]|] eqn:Hu;
      [|left; reflexivity].
    right. exists i, a, (status_data (newStatus a)), u1.
    split; [exact Ha|]. split; [exact Hu|].
    right. left. split; reflexivity.
  - simpl. unfold deleteShiftAssignment.
    destruct (find_assignment i d) as [a|] eqn:Ha; [|left; reflexivity].
    destruct (update i (delete_data now) d) as [[d1 u1]|] eqn:Hu;
      [|left; reflexivity].
    right. exists i, a, (delete_data now), u1.
    split; [exact Ha|]. split; [exact Hu|].
    right. right. exists now. split; reflexivity.
Qed.

End Writes.

Section CreateWrites.
Import Prisma Controller Plan Routes.

Lemma length_insert_from fresh now (rows : list Row.input) :
  List.length (insert_from fresh now rows) = List.length rows.
Proof.
  revert fresh. induction rows as [|x rows IH]; intros fresh; simpl;
    [reflexivity|]. rewrite IH. reflexivity.
Qed.

(** X1. On a request it handles without an exception,
    [createShiftAssignments] never touches the shifts or an existing
    assignment: the table afterwards is the table before followed by the
    new rows, the identity sequence advances by their number, rows are
    added exactly when the answer is 201, and any other answer leaves the
    whole store as it was. *)
Theorem create_appends_only :
  forall now b d,
    let resp := fst (createShiftAssignments now b d) in
    let d' := snd (createShiftAssignments now b d) in
    shifts d' = shifts d /\
    exists new,
      shift_assignments d' = shift_assignments d ++ new /\
      next_id d' = next_id d + Z.of_nat (List.length new) /\
      (new = [] <-> code resp <> 201) /\
      (code resp <> 201 -> d' = d).
Proof.
  intros now b d. cbv zeta.
  destruct (create_cases now b d) as [[Hd Hc]|H].
  - rewrite Hd.
    split; [reflexivity|]. exists []. rewrite app_nil_r.
    split; [reflexivity|]. split; [simpl; lia|].
    split; [|reflexivity].
    split; [|reflexivity]. intros _.
    destruct Hc as [Hc|Hc]; rewrite Hc; discriminate.
  - destruct H as (shiftId & company_id & s & role_id & ids & Hacc & Hne & H).
    rewrite H. cbn [fst snd createMany shifts shift_assignments next_id code created].
    split; [reflexivity|].
    eexists. split; [reflexivity|].
    rewrite length_insert_from.
    split; [reflexivity|]. split.
    + split; [|intros Hc; exfalso; apply Hc; reflexivity].
      intros Hnil. exfalso. apply Hne.
      apply (f_equal (@List.length Row.t)) in Hnil.
      rewrite length_insert_from, length_assignmentsToCreate in Hnil.
      apply length_zero_iff_nil. exact Hnil.
    + intros Hc. exfalso. apply Hc. reflexivity.
Qed.

(** X2. A batch request whose [endDate] is earlier than its [startDate] is
    answered 400 and writes nothing, whatever its other fields are. *)
Theorem create_rejects_inverted_range :
  forall now b d s e,
    CreateBody.startDate b = Some s ->
    CreateBody.endDate b = Some e ->
    e < s ->
    code (fst (createShiftAssignments now b d)) = 400 /\
    snd (createShiftAssignments now b d) = d.
Proof.
  intros now b d s e Hs He Hlt.
  destruct (create_cases now b d) as [[Hd Hc]|H].
  - split; [|exact Hd]. destruct Hc as [Hc|Hc]; [exact Hc|].
    exfalso. revert Hc. unfold createShiftAssignments.
    rewrite Hs, He.
    destruct (CreateBody.shiftId b); [|discriminate].
    destruct (CreateBody.company_id b); [|discriminate].
    destruct (CreateBody.role_id b); [|discriminate].
    destruct (CreateBody.user_ids b); [|discriminate].
    destruct (_ || _); [discriminate|].
    unfold end_before_start. apply Z.ltb_lt in Hlt. rewrite Hlt.
    discriminate.
  - destruct H as (shiftId & company_id & s' & role_id & ids & Hacc & _).
    destruct Hacc as [_ _ H3 _ _ _ _ Hr _]. exfalso.
    rewrite Hs in H3. injection H3 as <-. rewrite He in Hr.
    unfold end_before_start in Hr. apply Z.ltb_ge in Hr. lia.
Qed.

(** X3. Every row that [createShiftAssignments] adds is an active,
    non-deleted assignment of one of the requested workers, with the
    requested range, on the requested shift; and that shift exists in the
    store, is not soft-deleted and belongs to the requesting company. *)
Theorem create_only_on_live_shift :
  forall now b d r,
    In r (shift_assignments (snd (createShiftAssignments now b d))) ->
    ~ In r (shift_assignments d) ->
    exists sh ids,
      In sh (shifts d) /\
      ShiftRow.deleted_at sh = None /\
      CreateBody.shiftId b = Some (ShiftRow.id sh) /\
      CreateBody.company_id b = Some (ShiftRow.company_id sh) /\
      Row.shiftId r = ShiftRow.id sh /\
      CreateBody.user_ids b = Some ids /\ In (Row.user_id r) ids /\
      CreateBody.startDate b = Some (Row.startDate r) /\
      Row.endDate r = CreateBody.endDate b /\
      Row.status r = "active"%string /\ Row.deleted_at r = None.
Proof.
  intros now b d r Hin Hnew.
  destruct (create_cases now b d) as [[Hd _]|H];
    [rewrite Hd in Hin; contradiction|].
  destruct H as (shiftId & company_id & s & role_id & ids & Hacc & _ & H).
  rewrite H in Hin. cbn [fst snd createMany shift_assignments] in Hin.
  apply in_app_or in Hin. destruct Hin as [Hin|Hin]; [contradiction|].
  pose proof (insert_from_columns (next_id d) now shiftId s
                (CreateBody.endDate b) role_id (CreateBody.notes b)
                (filter (fun w => negb (is_blocked d shiftId s
                                          (CreateBody.endDate b) w)) ids))
    as Hcols.
  rewrite Forall_forall in Hcols.
  destruct (Hcols r Hin) as (C1 & C2 & C3 & C4 & C5 & _).
  assert (Hu : In (Row.user_id r) ids).
  { apply (in_map Row.user_id) in Hin. rewrite insert_from_user_ids in Hin.
    apply filter_In in Hin. apply Hin. }
  destruct Hacc as [A1 A2 A3 A4 A5 _ _ _ Hshift].
  destruct (findFirst (shift_where shiftId company_id) (shifts d)) as [sh|]
    eqn:Hf; [|congruence].
  apply find_some in Hf. destruct Hf as [Hsh Hp].
  unfold shift_where in Hp. split_andb.
  repeat match goal with
         | H : (_ =? _) = true |- _ => apply Z.eqb_eq in H
         end.
  exists sh, ids.
  split; [exact Hsh|].
  split; [destruct (ShiftRow.deleted_at sh); [discriminate | reflexivity]|].
  repeat split; congruence.
Qed.

End CreateWrites.

Section Invariants.
Import Prisma Controller Plan Routes.

Lemma NoDup_map_eq {A B} (f : A -> B) (l : list A) (x y : A) :
  NoDup (map f l) -> In x l -> In y l -> f x = f y -> x = y.
Proof.
  induction l as [|z l IH]; simpl; intros Hnd Hx Hy E; [contradiction|].
  inversion Hnd as [|? ? Hnotin Hnd']; subst.
  destruct Hx as [->|Hx], Hy as [->|Hy].
  - reflexivity.
  - exfalso. apply Hnotin. rewrite E. apply in_map. exact Hy.
  - exfalso. apply Hnotin. rewrite <- E. apply in_map. exact Hx.
  - apply IH; assumption.
Qed.

Lemma rewritten_ids (i : Z) (p : Row.data) (rows : list Row.t) :
  map Row.id (map (fun r => if has_id i r then Row.apply p r else r) rows)
  = map Row.id rows.
Proof.
  rewrite map_map. apply map_ext. intros r. destruct (has_id i r); reflexivity.
Qed.

Lemma inserted_ids fresh now (rows : list Row.input) :
  NoDup (map Row.id (insert_from fresh now rows)) /\
  Forall (fun r => fresh <= Row.id r < fresh + Z.of_nat (List.length rows))
         (insert_from fresh now rows).
Proof.
  revert fresh. induction rows as [|x rows IH]; intros fresh;
    cbn [insert_from map List.length]; [split; constructor|].
  destruct (IH (fresh + 1)) as [Hnd Hall]. rewrite Nat2Z.inj_succ. split.
  - constructor; [|exact Hnd]. cbn [Row.insert Row.id]. intros Hin.
    apply in_map_iff in Hin. destruct Hin as (r & Hr & Hin).
    rewrite Forall_forall in Hall. specialize (Hall r Hin). lia.
  - constructor; [cbn [Row.insert Row.id]; lia|].
    eapply Forall_impl; [|exact Hall]. cbn beta. intros r Hr. lia.
Qed.

Lemma step_ranges_ok (r : request) (d : db) :
  ranges_ok d -> ranges_ok (snd (shiftAssign_router r d)).
Proof.
  unfold ranges_ok. intros Hd.
  destruct r as [now b| id b | id | now id].
  - cbn [shiftAssign_router].
    destruct (create_cases now b d) as [[-> _]|H]; [exact Hd|].
    destruct H as (shiftId & company_id & s & role_id & ids & Hacc & _ & H).
    rewrite H. cbn [fst snd createMany shift_assignments].
    apply Forall_app. split; [exact Hd|].
    eapply Forall_impl; [|apply insert_from_columns].
    cbn beta. intros a (_ & _ & _ & Hs & He & _).
    unfold range_ok. rewrite Hs, He.
    destruct Hacc as [_ _ _ _ _ _ _ Hr _]. unfold end_before_start in Hr.
    destruct (CreateBody.endDate b) as [e|]; [|exact I].
    apply Z.ltb_ge in Hr. exact Hr.
  - destruct (mutation_cases (Put id b) d) as [->|H];
      [discriminate | exact Hd |].
    destruct H as (i & a & p & u & _ & Hu & Hp).
    apply update_rows in Hu. destruct Hu as (_ & _ & ->).
    destruct Hp as [(b' & [= _ <-] & -> & Hr & _)|[[[=] _]|(now & [=] & _)]].
    rewrite Forall_forall in *. intros x Hx. apply in_map_iff in Hx.
    destruct Hx as (r & <- & Hr'). destruct (has_id i r); [|apply Hd, Hr'].
    unfold range_ok. cbn [Row.apply Row.endDate Row.startDate update_data
                          Row.set_endDate Row.set_startDate Row.or_keep].
    unfold end_before_start in Hr.
    destruct (parsedEnd_of b a) as [e|]; [|exact I].
    apply Z.ltb_ge in Hr. exact Hr.
  - destruct (mutation_cases (Patch id) d) as [->|H];
      [discriminate | exact Hd |].
    destruct H as (i & a & p & u & _ & Hu & Hp).
    apply update_rows in Hu. destruct Hu as (_ & _ & ->).
    destruct Hp as [(b' & [=] & _)|[[_ ->]|(now & [=] & _)]].
    rewrite Forall_forall in *. intros x Hx. apply in_map_iff in Hx.
    destruct Hx as (r & <- & Hr'). specialize (Hd r Hr').
    destruct (has_id i r); exact Hd.
  - destruct (mutation_cases (Delete now id) d) as [->|H];
      [discriminate | exact Hd |].
    destruct H as (i & a & p & u & _ & Hu & Hp).
    apply update_rows in Hu. destruct Hu as (_ & _ & ->).
    destruct Hp as [(b' & [=] & _)|[[[=] _]|(now' & _ & ->)]].
    rewrite Forall_forall in *. intros x Hx. apply in_map_iff in Hx.
    destruct Hx as (r & <- & Hr'). specialize (Hd r Hr').
    destruct (has_id i r); exact Hd.
Qed.

Lemma step_primary_key (r : request) (d : db) :
  primary_key d -> primary_key (snd (shiftAssign_router r d)).
Proof.
  unfold primary_key. intros [Hnd Hlt].
  assert (Hmut : (forall now b, r <> Post now b) ->
                 NoDup (map Row.id (shift_assignments
                                      (snd (shiftAssign_router r d)))) /\
                 Forall (fun a => Row.id a < next_id
                                      (snd (shiftAssign_router r d)))
                        (shift_assignments (snd (shiftAssign_router r d)))).
  { intros Hnp. destruct (mutation_cases r d Hnp) as [->|H];
      [split; assumption|].
    destruct H as (i & a & p & u & _ & Hu & _).
    apply update_rows in Hu. destruct Hu as (_ & -> & ->).
    rewrite rewritten_ids. split; [exact Hnd|].
    rewrite Forall_forall in *. intros x Hx. apply in_map_iff in Hx.
    destruct Hx as (y & <- & Hy). specialize (Hlt y Hy).
    destruct (has_id i y); exact Hlt. }
  destruct r as [now b| id b | id | now id];
    try (apply Hmut; discriminate).
  cbn [shiftAssign_router].
  destruct (create_cases now b d) as [[-> _]|H]; [split; assumption|].
  destruct H as (shiftId & company_id & s & role_id & ids & _ & _ & H).
  rewrite H. cbn [fst snd createMany shift_assignments next_id].
  match goal with
  | |- context [insert_from _ _ ?rows] =>
    destruct (inserted_ids (next_id d) now rows) as [Hnew Hrange]
  end.
  rewrite Forall_forall in Hlt, Hrange. split.
  - rewrite map_app. apply NoDup_app; [exact Hnd | exact Hnew |].
    intros k Hk Hk'. apply in_map_iff in Hk, Hk'.
    destruct Hk as (x & <- & Hx). destruct Hk' as (y & E & Hy).
    specialize (Hlt x Hx). specialize (Hrange y Hy). lia.
  - apply Forall_app. split; apply Forall_forall; intros x Hx.
    + specialize (Hlt x Hx). lia.
    + specialize (Hrange x Hx). lia.
Qed.

End Invariants.

Section Reachable.
Import Prisma Controller Plan Routes.

(** X4. The range invariant survives every sequence of write requests: if
    every stored assignment has its [endDate] absent or not before its
    [startDate], the same holds after any number of batch creations,
    updates, toggles and deletions, accepted or rejected. *)
Theorem serve_keeps_ranges_ok :
  forall rs d, ranges_ok d -> ranges_ok (serve rs d).
Proof.
  induction rs as [|r rs IH]; intros d Hd; simpl; [exact Hd|].
  apply IH, step_ranges_ok, Hd.
Qed.

(** The primary key survives every sequence of write requests: ids
    stay pairwise distinct and below the identity sequence, so a batch
    never reuses the id of an existing (or soft-deleted) assignment. *)
Theorem serve_keeps_primary_key :
  forall rs d, primary_key d -> primary_key (serve rs d).
Proof.
  induction rs as [|r rs IH]; intros d Hd; simpl; [exact Hd|].
  apply IH, step_primary_key, Hd.
Qed.

Lemma same_identity_refl (rows : list Row.t) : Forall2 same_identity rows rows.
Proof.
  induction rows as [|r rows IH]; constructor; [repeat split | exact IH].
Qed.

Lemma same_identity_trans (l1 l2 l3 : list Row.t) :
  Forall2 same_identity l1 l2 -> Forall2 same_identity l2 l3 ->
  Forall2 same_identity l1 l3.
Proof.
  intros H12. revert l3. induction H12 as [|x y l1 l2 Hxy _ IH];
    intros l3 H23; inversion H23; subst; constructor.
  - destruct Hxy as (A1 & A2 & A3 & A4).
    match goal with H : same_identity y _ |- _ =>
      destruct H as (B1 & B2 & B3 & B4) end.
    repeat split; congruence.
  - apply IH. assumption.
Qed.

Lemma step_same_identity (r : request) (d : db) :
  exists kept new,
    shift_assignments (snd (shiftAssign_router r d)) = kept ++ new /\
    Forall2 same_identity (shift_assignments d) kept.
Proof.
  assert (Hmut : (forall now b, r <> Post now b) ->
                 exists kept new,
                   shift_assignments (snd (shiftAssign_router r d))
                   = kept ++ new /\
                   Forall2 same_identity (shift_assignments d) kept).
  { intros Hnp. destruct (mutation_cases r d Hnp) as [->|H].
    - exists (shift_assignments d), []. rewrite app_nil_r.
      split; [reflexivity | apply same_identity_refl].
    - destruct H as (i & a & p & u & _ & Hu & _).
      apply update_rows in Hu. destruct Hu as (_ & _ & ->).
      eexists _, []. rewrite app_nil_r. split; [reflexivity|].
      induction (shift_assignments d) as [|x rows IH]; simpl; constructor;
        [|exact IH].
      destruct (has_id i x); repeat split. }
  destruct r as [now b| id b | id | now id];
    try (apply Hmut; discriminate).
  cbn [shiftAssign_router].
  destruct (create_cases now b d) as [[-> _]|H].
  - exists (shift_assignments d), []. rewrite app_nil_r.
    split; [reflexivity | apply same_identity_refl].
  - destruct H as (shiftId & company_id & s & role_id & ids & _ & _ & H).
    rewrite H. cbn [fst snd createMany shift_assignments].
    eexists _, _. split; [reflexivity | apply same_identity_refl].
Qed.

(** X5. No sequence of write requests removes or reorders an assignment or
    changes its id, shift, worker or creation time: the table afterwards
    starts with one row per original row, in the same order and with these
    four columns unchanged, followed by the rows created since. *)
Theorem serve_keeps_identity :
  forall rs d,
    exists kept new,
      shift_assignments (serve rs d) = kept ++ new /\
      Forall2 same_identity (shift_assignments d) kept.
Proof.
  induction rs as [|r rs IH]; intros d; cbn [serve].
  - exists (shift_assignments d), []. rewrite app_nil_r.
    split; [reflexivity | apply same_identity_refl].
  - destruct (step_same_identity r d) as (k1 & n1 & E1 & F1).
    destruct (IH (snd (shiftAssign_router r d))) as (k2 & n2 & E2 & F2).
    rewrite E1 in F2. apply Forall2_app_inv_l in F2.
    destruct F2 as (k21 & k22 & F21 & F22 & ->).
    exists k21, (k22 ++ n2). rewrite E2, app_assoc.
    split; [reflexivity|]. eapply same_identity_trans; eassumption.
Qed.

Lemma step_keeps_deleted (r : request) (d : db) (n : nat) (x : Row.t) :
  primary_key d ->
  nth_error (shift_assignments d) n = Some x ->
  Row.deleted_at x <> None ->
  nth_error (shift_assignments (snd (shiftAssign_router r d))) n = Some x.
Proof.
  intros [Hnd _] Hn Hdel.
  assert (Hmut : (forall now b, r <> Post now b) ->
                 nth_error (shift_assignments (snd (shiftAssign_router r d))) n
                 = Some x).
  { intros Hnp. destruct (mutation_cases r d Hnp) as [->|H]; [exact Hn|].
    destruct H as (i & a & p & u & Ha & Hu & _).
    apply update_rows in Hu. destruct Hu as (_ & _ & ->).
    rewrite nth_error_map, Hn. cbn [option_map].
    destruct (find_assignment_some i d a Ha) as (Hin & Hid & Hnone).
    unfold has_id. destruct (Z.eqb_spec (Row.id x) i) as [E|N]; [|reflexivity].
    exfalso. apply Hdel.
    assert (x = a) as ->; [|exact Hnone].
    apply (NoDup_map_eq Row.id (shift_assignments d)); try assumption.
    - eapply nth_error_In. exact Hn.
    - congruence. }
  destruct r as [now b| id b | id | now id];
    try (apply Hmut; discriminate).
  cbn [shiftAssign_router].
  destruct (create_cases now b d) as [[-> _]|H]; [exact Hn|].
  destruct H as (shiftId & company_id & s & role_id & ids & _ & _ & H).
  rewrite H. cbn [fst snd createMany shift_assignments].
  rewrite nth_error_app1; [exact Hn|].
  apply nth_error_Some. rewrite Hn. discriminate.
Qed.

(** X6. Under the primary key, a soft-deleted assignment is frozen: no
    sequence of write requests changes any of its columns, so nothing
    undeletes it, reactivates it or edits it. *)
Theorem serve_keeps_deleted :
  forall rs d n x,
    primary_key d ->
    nth_error (shift_assignments d) n = Some x ->
    Row.deleted_at x <> None ->
    nth_error (shift_assignments (serve rs d)) n = Some x.
Proof.
  induction rs as [|r rs IH]; intros d n x Hpk Hn Hdel; cbn [serve];
    [exact Hn|].
  apply IH; [apply step_primary_key, Hpk | | exact Hdel].
  apply step_keeps_deleted; assumption.
Qed.

Lemma apply_empty_update (a : Row.t) :
  Row.apply (update_data empty_body a) a = a.
Proof. destruct a; reflexivity. Qed.

(** X7. Under the primary key, an update whose body names no field leaves
    the whole store exactly as it was, whether it is answered 200, 400 or
    404. *)
Theorem empty_update_changes_nothing :
  forall id d,
    primary_key d ->
    snd (updateShiftAssignment id empty_body d) = d.
Proof.
  intros id d [Hnd _].
  destruct (mutation_cases (Put id empty_body) d) as [H|H];
    [discriminate | exact H |].
  destruct H as (i & a & p & u & Ha & Hu & Hp).
  cbn [shiftAssign_router] in Hu.
  destruct Hp as [(b' & [= _ <-] & -> & _)|[[[=] _]|(now & [=] & _)]].
  apply update_rows in Hu. destruct Hu as (Hs & Hn & Hrows).
  destruct (find_assignment_some i d a Ha) as (Hin & Hid & _).
  assert (Hsame : shift_assignments
                    (snd (updateShiftAssignment id empty_body d))
                  = shift_assignments d).
  { rewrite Hrows. rewrite <- (map_id (shift_assignments d)) at 2.
    apply map_ext_in. intros r Hr. unfold has_id.
    destruct (Z.eqb_spec (Row.id r) i) as [E|N]; [|reflexivity].
    assert (r = a) as ->
      by (apply (NoDup_map_eq Row.id (shift_assignments d)); try assumption;
          congruence).
    apply apply_empty_update. }
  destruct (snd (updateShiftAssignment id empty_body d)) as [s1 r1 n1].
  destruct d as [s0 r0 n0]. cbn in Hs, Hn, Hsame. subst. reflexivity.
Qed.

End Reachable.

Section Safety.
Import Prisma Controller Plan Routes.

Lemma existsb_false_In {A} (P : A -> bool) (l : list A) (x : A) :
  existsb P l = false -> In x l -> P x = false.
Proof.
  intros H Hin. destruct (P x) eqn:Hp; [|reflexivity].
  rewrite <- H. symmetry. apply existsb_exists. exists x. split; assumption.
Qed.

Lemma not_end_before_start_valid (s : Z) (e : option Z) :
  end_before_start e s = false -> TimeRange.valid (TimeRange.Make s e).
Proof.
  unfold end_before_start, TimeRange.valid. simpl.
  destruct e as [x|]; [|intros _; exact I]. intros H.
  apply Z.ltb_ge. exact H.
Qed.

(** What a range the query does not report can still overlap. *)
Lemma unreported_overlap (s : Z) (e : option Z) (a : Row.t) :
  TimeRange.valid (TimeRange.Make s e) ->
  Row.startDate a <= far_future ->
  overlap_where s e a = false ->
  TimeRange.overlaps (TimeRange.Make s e) (TimeRange.of_row a) = true ->
  Row.endDate a = None /\ s < Row.startDate a.
Proof.
  intros Hv Hfar Hq Ho.
  rewrite (overlap_where_exact s e a Hv (fun _ => Hfar)), Ho in Hq.
  cbn [andb] in Hq. apply orb_false_elim in Hq. destruct Hq as [Hn Hs].
  apply Z.leb_gt in Hs. split; [|exact Hs].
  destruct (Row.endDate a); [discriminate Hn | reflexivity].
Qed.

(** X8. A row added by [createShiftAssignments] never conflicts with what
    the worker already had: against every active, non-deleted assignment
    [a] of the same worker that was in the store, the new row is on another
    shift and is not reported by the overlap query; and if the two ranges
    do overlap in the sense of section 4.1 (for [a] starting no later than
    9999-12-31), then [a] is open-ended and starts after the new row. *)
Theorem created_row_clear_of_existing :
  forall now b d r a,
    In r (shift_assignments (snd (createShiftAssignments now b d))) ->
    ~ In r (shift_assignments d) ->
    In a (shift_assignments d) ->
    live a = true ->
    Row.user_id a = Row.user_id r ->
    Row.shiftId a <> Row.shiftId r /\
    detector_overlaps r a = false /\
    (Row.startDate a <= far_future ->
     TimeRange.overlaps (TimeRange.of_row r) (TimeRange.of_row a) = true ->
     Row.endDate a = None /\ Row.startDate r < Row.startDate a).
Proof.
  intros now b d r a Hin Hnew Ha Hlive Huser.
  destruct (create_cases now b d) as [[Hd _]|H];
    [rewrite Hd in Hin; contradiction|].
  destruct H as (shiftId & company_id & s & role_id & ids & Hacc & _ & H).
  rewrite H in Hin. cbn [fst snd createMany shift_assignments] in Hin.
  apply in_app_or in Hin. destruct Hin as [Hin|Hin]; [contradiction|].
  set (e := CreateBody.endDate b) in *.
  pose proof (insert_from_columns (next_id d) now shiftId s e role_id
                (CreateBody.notes b)
                (filter (fun w => negb (is_blocked d shiftId s e w)) ids))
    as Hcols.
  rewrite Forall_forall in Hcols.
  destruct (Hcols r Hin) as (C1 & _ & _ & C4 & C5 & _).
  assert (Hfree : is_blocked d shiftId s e (Row.user_id r) = false).
  { apply (in_map Row.user_id) in Hin. rewrite insert_from_user_ids in Hin.
    apply filter_In in Hin. destruct Hin as [_ Hb].
    destruct (is_blocked d shiftId s e (Row.user_id r));
      [discriminate Hb | reflexivity]. }
  unfold is_blocked in Hfree. apply orb_false_elim in Hfree.
  destruct Hfree as [Hdup Hov].
  apply (existsb_false_In _ _ a) in Hdup; [|exact Ha].
  apply (existsb_false_In _ _ a) in Hov; [|exact Ha].
  unfold duplicates_on in Hdup. unfold overlaps_with in Hov.
  rewrite Huser, Z.eqb_refl, Hlive in Hdup, Hov.
  rewrite !andb_true_r in Hdup. cbn [andb] in Hov.
  assert (Hq : detector_overlaps r a = false)
    by (unfold detector_overlaps; rewrite C4, C5; exact Hov).
  split; [rewrite C1; apply Z.eqb_neq; exact Hdup|].
  split; [exact Hq|].
  intros Hfar Ho. unfold TimeRange.of_row at 1 in Ho. rewrite C4, C5 in *.
  apply (unreported_overlap s e a); try assumption.
  apply not_end_before_start_valid. destruct Hacc. assumption.
Qed.

(** X9. An update that is answered 200 leaves the edited record clear of
    the worker's other assignments as far as the overlap query sees: every
    other active, non-deleted row of the same worker is not reported
    against the stored range, and if it overlaps that range in the sense of
    section 4.1 (starting no later than 9999-12-31) it is open-ended and
    starts after the edited record. *)
Theorem updated_row_clear_of_others :
  forall i b d u a,
    code (fst (updateShiftAssignment (Some i) b d)) = 200 ->
    find_assignment i (snd (updateShiftAssignment (Some i) b d)) = Some u ->
    In a (shift_assignments (snd (updateShiftAssignment (Some i) b d))) ->
    Row.id a <> i ->
    live a = true ->
    Row.user_id a = Row.user_id u ->
    detector_overlaps u a = false /\
    (Row.startDate a <= far_future ->
     TimeRange.overlaps (TimeRange.of_row u) (TimeRange.of_row a) = true ->
     Row.endDate a = None /\ Row.startDate u < Row.startDate a).
Proof.
  intros i b d u a Hcode Hu Ha Hid Hlive Huser.
  unfold updateShiftAssignment in *.
  destruct (find_assignment i d) as [a0|] eqn:H0; [|discriminate Hcode].
  destruct (end_before_start _ _) eqn:Hr; [discriminate Hcode|].
  destruct (overlapping d i a0 _ _) eqn:Ho; [discriminate Hcode|].
  destruct (update i (update_data b a0) d) as [[d1 u1]|] eqn:Hup;
    [|discriminate Hcode].
  cbn [snd] in Hu, Ha.
  rewrite (find_assignment_after_update i (update_data b a0) d d1 a0 u1
             eq_refl H0 Hup) in Hu.
  injection Hu as <-.
  apply update_rows in Hup. destruct Hup as (_ & _ & Hrows).
  rewrite Hrows in Ha. apply in_map_iff in Ha. destruct Ha as (x & Hx & Hin).
  unfold has_id in Hx. destruct (Z.eqb_spec (Row.id x) i) as [E|N].
  { exfalso. apply Hid. rewrite <- Hx. exact E. }
  subst x.
  unfold overlapping, findFirst in Ho.
  pose proof (find_none _ _ Ho a Hin) as Hq. cbn beta in Hq.
  unfold has_id in Hq. apply Z.eqb_neq in N. rewrite N in Hq.
  cbn [Row.apply Row.user_id] in Huser. rewrite Huser, Z.eqb_refl in Hq.
  unfold live in Hlive. apply andb_prop in Hlive. destruct Hlive as [L1 L2].
  rewrite L1, L2 in Hq. cbn [negb andb] in Hq.
  assert (Hd : detector_overlaps (Row.apply (update_data b a0) a0) a = false)
    by exact Hq.
  split; [exact Hd|]. intros Hfar Hov.
  apply (unreported_overlap (parsedStart_of b a0) (parsedEnd_of b a0) a);
    try assumption.
  apply not_end_before_start_valid. exact Hr.
Qed.

(** X10. Once an assignment is soft-deleted, the other routes treat its id
    as unknown: an update or a toggle of that id is answered 404 and leaves
    the store as the deletion left it. *)
Theorem deleted_id_is_unknown :
  forall now i d a,
    find_assignment i d = Some a ->
    let d1 := snd (deleteShiftAssignment now (Some i) d) in
    find_assignment i d1 = None /\
    (forall b, updateShiftAssignment (Some i) b d1 = (not_found, d1)) /\
    toggleShiftAssignmentStatus (Some i) d1 = (not_found, d1).
Proof.
  intros now i d a Ha d1.
  assert (Hnone : find_assignment i d1 = None).
  { unfold d1, deleteShiftAssignment. rewrite Ha.
    destruct (update_some i (delete_data now) d a Ha)
      as (d' & u & Hu & _ & _ & Hrows).
    rewrite Hu. cbn [snd]. apply find_all_false. intros r Hr.
    rewrite Hrows in Hr.
    destruct (live_after_delete i now _ r Hr) as [Hd _].
    unfold has_id. destruct (Z.eqb_spec (Row.id r) i) as [E|N]; [|reflexivity].
    destruct (Hd E) as [-> _]. reflexivity. }
  split; [exact Hnone|]. split.
  - intros b. unfold updateShiftAssignment. rewrite Hnone. reflexivity.
  - unfold toggleShiftAssignmentStatus. rewrite Hnone. reflexivity.
Qed.

End Safety.

(* ------------------------------------------------------------------ *)
(** ** Clock strings *)

Section Clock.
Import Time.

Lemma all_below (P : Z -> bool) (k : nat) :
  forallb P (map Z.of_nat (seq 0 k)) = true ->
  forall n, 0 <= n < Z.of_nat k -> P n = true.
Proof.
  intros H n Hn. rewrite forallb_forall in H. apply H.
  apply in_map_iff. exists (Z.to_nat n). split; [lia|].
  apply in_seq. lia.
Qed.

Lemma pad_two_digits (n : Z) :
  0 <= n < 100 -> padStart 2 "0" (toString n) = two_digits n.
Proof.
  intros Hn. apply String.eqb_eq.
  apply (all_below
           (fun n => String.eqb (padStart 2 "0" (toString n)) (two_digits n))
           100); [vm_compute; reflexivity | exact Hn].
Qed.

Lemma read_two_digits (h m : Z) :
  0 <= h < 100 -> 0 <= m < 100 ->
  read_clock (String.append (two_digits h) (String.append ":" (two_digits m)))
  = Some (h * 60 + m).
Proof.
  intros Hh Hm.
  assert (D : forall k, 0 <= k < 10 -> digit_value (digit_char k) = Some k).
  { intros k Hk.
    assert (E : (match digit_value (digit_char k) with
                 | Some v => v =? k
                 | None => false
                 end) = true)
      by (apply (all_below (fun k => match digit_value (digit_char k) with
                                     | Some v => v =? k
                                     | None => false
                                     end) 10);
          [vm_compute; reflexivity | exact Hk]).
    destruct (digit_value (digit_char k)); [|discriminate E].
    apply Z.eqb_eq in E. congruence. }
  unfold two_digits. cbn [String.append read_clock].
  assert (H1 : 0 <= h / 10 < 10)
    by (split; [apply Z.div_pos | apply Z.div_lt_upper_bound]; lia).
  assert (H2 : 0 <= m / 10 < 10)
    by (split; [apply Z.div_pos | apply Z.div_lt_upper_bound]; lia).
  assert (H3 : 0 <= h mod 10 < 10) by (apply Z.mod_pos_bound; lia).
  assert (H4 : 0 <= m mod 10 < 10) by (apply Z.mod_pos_bound; lia).
  rewrite (D _ H1), (D _ H2), (D _ H3), (D _ H4).
  cbn [Ascii.eqb Bool.eqb]. f_equal.
  pose proof (Z.div_mod h 10 ltac:(lia)). pose proof (Z.div_mod m 10 ltac:(lia)).
  lia.
Qed.

Lemma hours_minutes (t : Z) :
  getUTCHours t * 60 + getUTCMinutes t = (t / 60000) mod 1440 /\
  0 <= getUTCHours t < 24 /\ 0 <= getUTCMinutes t < 60.
Proof.
  unfold getUTCHours, getUTCMinutes.
  replace 3600000 with (60000 * 60) by reflexivity.
  rewrite <- Z.div_div by lia.
  replace 1440 with (60 * 24) by reflexivity.
  rewrite Z.rem_mul_r by lia.
  split; [lia|]. split; apply Z.mod_pos_bound; lia.
Qed.

(** X11. [formatTimeFromDatabase] maps [null] to [null] and a date to a
    five-character string ["HH:MM"] of two-digit UTC hours (00 to 23) and
    minutes (00 to 59); read back as a clock it gives the minute of the UTC
    day, [(t / 60000) mod 1440]. *)
Theorem formatTime_is_clock :
  formatTimeFromDatabase None = None /\
  forall t,
    exists s,
      formatTimeFromDatabase (Some t) = Some s /\
      s = String.append (two_digits (getUTCHours t))
                        (String.append ":" (two_digits (getUTCMinutes t))) /\
      0 <= getUTCHours t < 24 /\ 0 <= getUTCMinutes t < 60 /\
      String.length s = 5%nat /\
      read_clock s = Some ((t / 60000) mod 1440).
Proof.
  split; [reflexivity|]. intros t.
  destruct (hours_minutes t) as (Hsum & Hh & Hm).
  eexists. split; [reflexivity|].
  cbv zeta. rewrite !pad_two_digits by lia.
  split; [reflexivity|]. split; [exact Hh|]. split; [exact Hm|].
  split; [reflexivity|].
  rewrite read_two_digits by lia. rewrite Hsum. reflexivity.
Qed.

(** X12. The string depends only on the minute of the UTC day: two dates
    that agree on [(t / 60000) mod 1440] (same time of day on any two days,
    whatever the seconds and milliseconds) are formatted alike. *)
Theorem formatTime_same_minute :
  forall t t',
    (t / 60000) mod 1440 = (t' / 60000) mod 1440 ->
    formatTimeFromDatabase (Some t) = formatTimeFromDatabase (Some t').
Proof.
  intros t t' H.
  assert (Hh : getUTCHours t = getUTCHours t'
               /\ getUTCMinutes t = getUTCMinutes t').
  { destruct (hours_minutes t) as (S1 & H1 & M1).
    destruct (hours_minutes t') as (S2 & H2 & M2).
    rewrite <- S1, <- S2 in H. lia. }
  destruct Hh as [Hh Hm]. unfold formatTimeFromDatabase.
  rewrite Hh, Hm. reflexivity.
Qed.

Lemma formatTime_same_minute_witness :
  formatTimeFromDatabase (Some 34200000)
  = formatTimeFromDatabase (Some (34200000 + 86400000 + 59999)).
Proof.
  apply (formatTime_same_minute 34200000 (34200000 + 86400000 + 59999)).
  reflexivity.
Defined.

End Clock.

(* ------------------------------------------------------------------ *)
(** ** Pagination *)

Section Paging.
Import Pagination.

(** X13. Whatever the query and the options, [parsePaginationParams] gives a
    page of at least 1 and a limit of at most [maxLimit]; when [maxLimit]
    is at least 1 (as by default) the limit is at least 1, and when
    [maxLimit] is below 1 the limit is [maxLimit] itself.  When the page
    and the product [(page - 1) * limit] are within the integers that JS
    numbers represent exactly, [skip] is that product, and it is not
    negative when [maxLimit] is at least 1. *)
Theorem parsePaginationParams_bounds :
  forall q o,
    let p := parsePaginationParams q o in
    let m := default_to (maxLimit o) 100 in
    1 <= page p /\ limit p <= m /\
    (1 <= m -> 1 <= limit p) /\
    (m < 1 -> limit p = m) /\
    (exact (page p) -> exact ((page p - 1) * limit p) ->
     skip p = (page p - 1) * limit p /\ (1 <= m -> 0 <= skip p)).
Proof.
  intros q o. cbv zeta. unfold parsePaginationParams.
  cbn [page limit skip].
  set (pg := or_else (q_page q) (default_to (defaultPage o) 1)).
  set (lm := or_else (q_limit q) (default_to (defaultLimit o) 10)).
  set (m := default_to (maxLimit o) 100).
  repeat split; try lia; nia.
Qed.

Lemma parsePaginationParams_bounds_witness :
  1 <= limit (parsePaginationParams (Query (Some (-3)) (Some 250)) no_options)
  /\ skip (parsePaginationParams (Query (Some 4) (Some 250)) no_options) = 300
  /\ limit (parsePaginationParams (Query None None)
                                  (Options None None (Some 0))) = 0.
Proof.
  destruct (parsePaginationParams_bounds (Query (Some (-3)) (Some 250))
              no_options) as (_ & _ & H & _).
  destruct (parsePaginationParams_bounds (Query (Some 4) (Some 250))
              no_options) as (_ & _ & _ & _ & Hs).
  destruct (parsePaginationParams_bounds (Query None None)
              (Options None None (Some 0))) as (_ & _ & _ & H' & _).
  split; [apply H; vm_compute; discriminate|].
  split.
  - destruct Hs as [Hs _]; [| | exact Hs];
      unfold exact; vm_compute; split; discriminate.
  - apply H'. reflexivity.
Defined.

(** X14. Parsed parameters are stable: when [maxLimit] is at least 1,
    parsing the page and limit that [parsePaginationParams] returned, with
    the same options, returns them unchanged. *)
Theorem parsePaginationParams_stable :
  forall q o,
    1 <= default_to (maxLimit o) 100 ->
    let p := parsePaginationParams q o in
    parsePaginationParams (Query (Some (page p)) (Some (limit p))) o = p.
Proof.
  intros q o Hm. cbv zeta. unfold parsePaginationParams.
  cbn [page limit skip q_page q_limit].
  set (pg := Z.max 1 (or_else (q_page q) (default_to (defaultPage o) 1))).
  set (lm := Z.min (Z.max 1 (or_else (q_limit q)
                               (default_to (defaultLimit o) 10)))
                   (default_to (maxLimit o) 100)).
  assert (Hpg : 1 <= pg) by (unfold pg; lia).
  assert (Hlm : 1 <= lm <= default_to (maxLimit o) 100) by (unfold lm; lia).
  assert (E1 : or_else (Some pg) (default_to (defaultPage o) 1) = pg).
  { unfold or_else. destruct (Z.eqb_spec pg 0); [lia | reflexivity]. }
  assert (E2 : or_else (Some lm) (default_to (defaultLimit o) 10) = lm).
  { unfold or_else. destruct (Z.eqb_spec lm 0); [lia | reflexivity]. }
  rewrite E1, E2.
  replace (Z.max 1 pg) with pg by lia.
  replace (Z.min (Z.max 1 lm) (default_to (maxLimit o) 100)) with lm by lia.
  reflexivity.
Qed.

Lemma parsePaginationParams_stable_witness :
  parsePaginationParams (Query (Some 1) (Some 100)) no_options
  = parsePaginationParams (Query (Some (-3)) (Some 250)) no_options.
Proof.
  apply (parsePaginationParams_stable (Query (Some (-3)) (Some 250))
                                      no_options).
  vm_compute. discriminate.
Defined.

(** X15. For a positive limit and a non-negative count,
    [calculatePaginationMeta] reports as [totalPages] the least number [n]
    of pages that hold all records ([(n - 1) * limit < totalCount <=
    n * limit]); [hasNextPage] holds exactly when records remain after the
    current page ([page * limit < totalCount]) and [nextPage] is then
    [page + 1], otherwise null; [hasPrevPage] holds exactly when the page
    is above 1 and [prevPage] is then [page - 1], otherwise null. *)
Theorem calculatePaginationMeta_counts :
  forall total pg lim,
    0 < lim -> 0 <= total ->
    let m := calculatePaginationMeta total pg lim in
    exists n,
      totalPages m = Finite n /\
      (n - 1) * lim < total <= n * lim /\
      (hasNextPage m = true <-> pg * lim < total) /\
      nextPage m = (if pg * lim <? total then Some (pg + 1) else None) /\
      (hasPrevPage m = true <-> 1 < pg) /\
      prevPage m = (if 1 <? pg then Some (pg - 1) else None) /\
      currentPage m = pg /\ totalCount m = total /\ meta_limit m = lim.
Proof.
  intros total pg lim Hl Ht. cbv zeta.
  unfold calculatePaginationMeta, ceil_div.
  destruct (Z.eqb_spec lim 0) as [E|_]; [lia|].
  cbn [totalPages hasNextPage hasPrevPage nextPage prevPage currentPage
       totalCount meta_limit less_than].
  set (n := - (- total / lim)).
  assert (Hn : (n - 1) * lim < total <= n * lim).
  { pose proof (Z.div_mod (- total) lim ltac:(lia)) as Hdm.
    pose proof (Z.mod_pos_bound (- total) lim Hl) as Hb.
    unfold n. nia. }
  assert (Hnext : (pg <? n) = (pg * lim <? total)).
  { destruct (Z.ltb_spec pg n), (Z.ltb_spec (pg * lim) total);
      try reflexivity; nia. }
  exists n. split; [reflexivity|]. split; [exact Hn|].
  rewrite Hnext.
  split; [apply Z.ltb_lt|]. split; [reflexivity|].
  split; [apply Z.ltb_lt|]. repeat split.
Qed.

Lemma calculatePaginationMeta_counts_witness :
  exists n,
    totalPages (calculatePaginationMeta 41 2 10) = Finite n /\
    (n - 1) * 10 < 41 <= n * 10 /\
    nextPage (calculatePaginationMeta 41 2 10) = Some 3 /\
    prevPage (calculatePaginationMeta 41 2 10) = Some 1.
Proof.
  destruct (calculatePaginationMeta_counts 41 2 10) as
    (n & H1 & H2 & _ & H4 & _ & H6 & _).
  - reflexivity.
  - discriminate.
  - exists n. repeat split; try apply H2; assumption.
Defined.

End Paging.

Section PagedQueries.
Import Pagination.

Lemma chunks_cover {A} (c : nat) (l : list A) (n : nat) :
  (List.length l <= n * c)%nat ->
  List.concat (map (fun k => firstn c (skipn (k * c) l)) (seq 0 n)) = l.
Proof.
  revert l. induction n as [|n IH]; intros l Hl.
  - simpl in *. destruct l; [reflexivity | simpl in Hl; lia].
  - cbn [seq map List.concat]. rewrite <- seq_shift, map_map.
    rewrite (map_ext (fun k => firstn c (skipn (S k * c) l))
                     (fun k => firstn c (skipn (k * c) (skipn c l)))).
    + rewrite IH; [apply firstn_skipn|]. rewrite length_skipn.
      cbn [Nat.mul] in Hl. lia.
    + intros k. rewrite skipn_skipn. do 2 f_equal. cbn [Nat.mul]. lia.
Qed.

Lemma skip_in_range (pg lim : Z) :
  1 <= pg -> 1 <= lim <= 100 ->
  skip (parsePaginationParams (Query (Some pg) (Some lim)) no_options)
  = (pg - 1) * lim.
Proof.
  intros Hp Hl. unfold parsePaginationParams, or_else.
  cbn [q_page q_limit no_options defaultPage defaultLimit maxLimit default_to
       skip].
  destruct (Z.eqb_spec pg 0); [lia|]. destruct (Z.eqb_spec lim 0); [lia|].
  replace (Z.max 1 pg) with pg by lia.
  replace (Z.min (Z.max 1 lim) 100) with lim by lia. reflexivity.
Qed.

Lemma skip_over_limit (pg lim : Z) :
  1 <= pg -> 100 < lim ->
  skip (parsePaginationParams (Query (Some pg) (Some lim)) no_options)
  = (pg - 1) * 100.
Proof.
  intros Hp Hl. unfold parsePaginationParams, or_else.
  cbn [q_page q_limit no_options defaultPage defaultLimit maxLimit default_to
       skip].
  destruct (Z.eqb_spec pg 0); [lia|]. destruct (Z.eqb_spec lim 0); [lia|].
  replace (Z.max 1 pg) with pg by lia.
  replace (Z.min (Z.max 1 lim) 100) with 100 by lia. reflexivity.
Qed.

(** X16. With a limit between 1 and 100, the pages of [paginateWithPrisma]
    partition the result: page [k] holds at most [limit] records, and pages
    1 to [totalPages], one after the other, are exactly the matching rows
    in the store's order, each once (for an ordering that neither adds nor
    drops rows). *)
Theorem paginateWithPrisma_pages_cover :
  forall (A B : Type) (table : list A) (where_ : A -> bool)
         (orderBy : list A -> list A) (view : A -> B) (lim : Z) (n : nat),
    (forall l, List.length (orderBy l) = List.length l) ->
    1 <= lim <= 100 ->
    totalPages (snd (paginateWithPrisma table where_ orderBy view
                                        (Some 1) (Some lim)))
    = Finite (Z.of_nat n) ->
    (forall k, (1 <= k)%nat ->
       (List.length (fst (paginateWithPrisma table where_ orderBy view
                            (Some (Z.of_nat k)) (Some lim)))
        <= Z.to_nat lim)%nat) /\
    List.concat (map (fun k => fst (paginateWithPrisma table where_ orderBy view
                                 (Some (Z.of_nat k)) (Some lim)))
                (seq 1 n))
    = map view (orderBy (filter where_ table)).
Proof.
  intros A B table where_ orderBy view lim n Hord Hl Hn.
  assert (Hpage : forall k, (1 <= k)%nat ->
            fst (paginateWithPrisma table where_ orderBy view
                   (Some (Z.of_nat k)) (Some lim))
            = map view (firstn (Z.to_nat lim)
                          (skipn ((k - 1) * Z.to_nat lim)
                                 (orderBy (filter where_ table))))).
  { intros k Hk. unfold paginateWithPrisma, findMany_page.
    cbn [fst default_to]. rewrite skip_in_range by lia.
    destruct (Z.leb_spec 0 lim); [|lia].
    do 3 f_equal. rewrite Z2Nat.inj_mul by lia. f_equal. lia. }
  split.
  - intros k Hk. rewrite Hpage by exact Hk.
    rewrite length_map, length_firstn. lia.
  - unfold paginateWithPrisma, calculatePaginationMeta, ceil_div in Hn.
    cbn [snd totalPages default_to] in Hn.
    destruct (Z.eqb_spec lim 0); [lia|]. injection Hn as Hn.
    unfold count in Hn.
    assert (Hlen : (List.length (orderBy (filter where_ table))
                    <= n * Z.to_nat lim)%nat).
    { rewrite Hord.
      pose proof (Z.div_mod (- Z.of_nat (List.length (filter where_ table)))
                            lim ltac:(lia)) as Hdm.
      pose proof (Z.mod_pos_bound
                    (- Z.of_nat (List.length (filter where_ table))) lim
                    ltac:(lia)) as Hb.
      nia. }
    transitivity
      (map view
         (List.concat
            (map (fun k => firstn (Z.to_nat lim)
                             (skipn (k * Z.to_nat lim)
                                    (orderBy (filter where_ table))))
                 (seq 0 n))));
      [|rewrite (chunks_cover (Z.to_nat lim) _ n Hlen); reflexivity].
    rewrite <- seq_shift, map_map, concat_map, map_map.
    f_equal. apply map_ext. intros k. rewrite Hpage by lia.
    do 3 f_equal. lia.
Qed.

(** X17. With a limit above 100 the pages of [paginateWithPrisma] overlap:
    the offset advances by 100 per page (the parsed limit is capped) while
    each page still takes [limit] rows, so the first record of page
    [k + 1] is also record number 100 (counting from 0) of page [k]. *)
Theorem paginateWithPrisma_over_limit_overlaps :
  forall (A B : Type) (table : list A) (where_ : A -> bool)
         (orderBy : list A -> list A) (view : A -> B) (pg lim : Z),
    1 <= pg -> 100 < lim ->
    fst (paginateWithPrisma table where_ orderBy view (Some pg) (Some lim))
    = map view (firstn (Z.to_nat lim)
                  (skipn (Z.to_nat ((pg - 1) * 100))
                         (orderBy (filter where_ table)))) /\
    nth_error (fst (paginateWithPrisma table where_ orderBy view
                      (Some (pg + 1)) (Some lim))) 0
    = nth_error (fst (paginateWithPrisma table where_ orderBy view
                        (Some pg) (Some lim))) 100 /\
    nth_error (fst (paginateWithPrisma table where_ orderBy view
                      (Some pg) (Some lim))) 100
    = option_map view
        (nth_error (orderBy (filter where_ table)) (Z.to_nat (pg * 100))).
Proof.
  intros A B table where_ orderBy view pg lim Hp Hl.
  assert (Hpage : forall p, 1 <= p ->
            fst (paginateWithPrisma table where_ orderBy view
                   (Some p) (Some lim))
            = map view (firstn (Z.to_nat lim)
                          (skipn (Z.to_nat ((p - 1) * 100))
                                 (orderBy (filter where_ table))))).
  { intros p Hp'. unfold paginateWithPrisma, findMany_page.
    cbn [fst default_to]. rewrite skip_over_limit by lia.
    destruct (Z.leb_spec 0 lim); [reflexivity | lia]. }
  assert (Hnth : forall p k, 1 <= p -> (k < Z.to_nat lim)%nat ->
            nth_error (fst (paginateWithPrisma table where_ orderBy view
                              (Some p) (Some lim))) k
            = option_map view
                (nth_error (orderBy (filter where_ table))
                           (Z.to_nat ((p - 1) * 100) + k))).
  { intros p k Hp' Hk. rewrite Hpage by exact Hp'.
    rewrite nth_error_map, nth_error_firstn.
    destruct (Nat.ltb_spec k (Z.to_nat lim)); [|lia].
    rewrite nth_error_skipn. reflexivity. }
  split; [apply Hpage; exact Hp|].
  rewrite (Hnth (pg + 1) 0%nat), (Hnth pg 100%nat) by lia.
  split; do 2 f_equal; lia.
Qed.

End PagedQueries.

(* ------------------------------------------------------------------ *)
(** ** Listings *)

Section Ordering.

Lemma insert_desc_perm {A} (key : A -> Z) (x : A) (l : list A) :
  Permutation (Order.insert_desc key x l) (x :: l).
Proof.
  induction l as [|y l IH]; simpl; [apply Permutation_refl|].
  destruct (key y <=? key x); [apply Permutation_refl|].
  eapply Permutation_trans; [apply perm_skip, IH | apply perm_swap].
Qed.

Lemma desc_perm {A} (key : A -> Z) (l : list A) :
  Permutation (Order.desc key l) l.
Proof.
  induction l as [|x l IH]; simpl; [apply Permutation_refl|].
  eapply Permutation_trans; [apply insert_desc_perm | apply perm_skip, IH].
Qed.

Lemma desc_In {A} (key : A -> Z) (l : list A) (x : A) :
  In x (Order.desc key l) <-> In x l.
Proof.
  split; apply Permutation_in;
    [apply desc_perm | apply Permutation_sym, desc_perm].
Qed.

Lemma insert_desc_decreasing {A} (key : A -> Z) (x : A) (l : list A) :
  Order.decreasing (map key l) ->
  Order.decreasing (map key (Order.insert_desc key x l)).
Proof.
  induction l as [|y l IH]; simpl; intros H; [split; constructor|].
  destruct H as [Hall Hdec].
  destruct (Z.leb_spec (key y) (key x)) as [Hle|Hlt];
    cbn [map Order.decreasing].
  - split; [|split; assumption].
    constructor; [exact Hle|].
    eapply Forall_impl; [|exact Hall]. cbn beta. intros k Hk. lia.
  - split; [|apply IH, Hdec].
    apply Forall_forall. intros k Hk. apply in_map_iff in Hk.
    destruct Hk as (z & <- & Hz).
    apply (Permutation_in _ (insert_desc_perm key x l)) in Hz.
    destruct Hz as [<-|Hz]; [lia|].
    rewrite Forall_forall in Hall. apply Hall. apply in_map. exact Hz.
Qed.

Lemma desc_decreasing {A} (key : A -> Z) (l : list A) :
  Order.decreasing (map key (Order.desc key l)).
Proof.
  induction l as [|x l IH]; simpl; [exact I|].
  apply insert_desc_decreasing, IH.
Qed.

End Ordering.

Section ShiftListing.
Import Prisma Controller Plan Listing.

(** X18. The by-shift listing is ordered by decreasing [startDate] and,
    after a successful soft delete of assignment [i], it shows for every
    shift exactly the records it showed before, except the one with id
    [i]. *)
Theorem listing_after_delete :
  forall now i d a,
    find_assignment i d = Some a ->
    let d1 := snd (deleteShiftAssignment now (Some i) d) in
    forall s,
      Order.decreasing (map Row.startDate (assignmentsByShift d1 s)) /\
      forall r, In r (assignmentsByShift d1 s)
                <-> In r (assignmentsByShift d s) /\ Row.id r <> i.
Proof.
  intros now i d a Ha d1 s. split; [apply desc_decreasing|]. intros r.
  assert (Hrows : shift_assignments d1
                  = map (fun r => if has_id i r
                                  then Row.apply (delete_data now) r else r)
                        (shift_assignments d)).
  { unfold d1, deleteShiftAssignment. rewrite Ha.
    destruct (update_some i (delete_data now) d a Ha)
      as (d' & u & Hu & _ & _ & Hrows).
    rewrite Hu. exact Hrows. }
  unfold assignmentsByShift, findMany. rewrite !desc_In, !filter_In, Hrows.
  rewrite in_map_iff. unfold has_id. split.
  - intros [(x & Hx & Hin) Hp].
    destruct (Z.eqb_spec (Row.id x) i) as [E|N].
    + subst r. cbn [Row.apply Row.deleted_at delete_data Row.set_deleted_at
                    Row.or_keep is_null] in Hp.
      rewrite andb_false_r in Hp. discriminate Hp.
    + subst r. repeat split; assumption.
  - intros [[Hin Hp] Hid]. split; [|exact Hp].
    exists r. split; [|exact Hin].
    destruct (Z.eqb_spec (Row.id r) i); [contradiction | reflexivity].
Qed.

Lemma listing_after_delete_witness :
  In (Examples.assignment 2 2 7 10 None "active")
     (assignmentsByShift
        (snd (deleteShiftAssignment 5 (Some 1) Examples.store_two)) 2)
  /\ assignmentsByShift
       (snd (deleteShiftAssignment 5 (Some 1) Examples.store_two)) 1 = [].
Proof.
  split.
  - apply (proj2 (listing_after_delete 5 1 Examples.store_two
                    (Examples.assignment 1 1 7 1 (Some 3) "active")
                    eq_refl 2)).
    split; [left; reflexivity | discriminate].
  - reflexivity.
Defined.

(** X19. After [createShiftAssignments], whatever its answer, the by-shift
    listing shows for every shift the records it showed before together
    with the rows the request added on that shift; all added rows are on
    the requested shift. *)
Theorem listing_after_create :
  forall now b d,
    let d' := snd (createShiftAssignments now b d) in
    exists new,
      shift_assignments d' = shift_assignments d ++ new /\
      (forall r, In r new -> CreateBody.shiftId b = Some (Row.shiftId r)) /\
      forall s r, In r (assignmentsByShift d' s)
                  <-> In r (assignmentsByShift d s)
                      \/ (In r new /\ Row.shiftId r = s).
Proof.
  intros now b d d'. unfold d'.
  destruct (create_cases now b d) as [[Hd _]|H].
  - exists []. rewrite Hd, app_nil_r. split; [reflexivity|].
    split; [intros r []|]. intros s r. split; [left; assumption|].
    intros [H|[[] _]]. exact H.
  - destruct H as (shiftId & company_id & st & role_id & ids & Hacc & _ & H).
    rewrite H. cbn [fst snd createMany shift_assignments].
    eexists. split; [reflexivity|].
    pose proof (insert_from_columns (next_id d) now shiftId st
                  (CreateBody.endDate b) role_id (CreateBody.notes b)
                  (filter (fun w => negb (is_blocked d shiftId st
                                            (CreateBody.endDate b) w)) ids))
      as Hcols.
    rewrite Forall_forall in Hcols. split.
    + intros r Hr. destruct (Hcols r Hr) as (-> & _).
      destruct Hacc. assumption.
    + intros s r. unfold assignmentsByShift, findMany.
      cbn [shift_assignments]. rewrite !desc_In, !filter_In, in_app_iff.
      split.
      * intros [[Hin|Hin] Hp]; [left; split; assumption|].
        right. split; [exact Hin|].
        apply andb_prop in Hp. destruct Hp as [Hp _].
        apply Z.eqb_eq. exact Hp.
      * intros [[Hin Hp]|[Hin Hs]]; [split; [left|]; assumption|].
        split; [right; exact Hin|].
        destruct (Hcols r Hin) as (_ & _ & Hdel & _).
        rewrite Hdel, Hs, Z.eqb_refl. reflexivity.
Qed.

End ShiftListing.

(* ------------------------------------------------------------------ *)
(** ** Service requests *)

Section ServiceRequests.

(** The body of a response; [body] names a request body below. *)
Local Abbreviation sent := body.

Import ServiceRequest.

Variable coordinate : Type.
Variable truthy : coordinate -> bool.
Variable coordinate_json : coordinate -> Json.t.
Variable toLowerCase : string -> string.

(** The two ways [createServiceRequest] ends. *)
Lemma post_cases (now : Z) (b : body coordinate) (st : store coordinate) :
  (createServiceRequest truthy coordinate_json toLowerCase now b st
   = (failure 400 "latitude, longitude, and requestType are required", st)
   /\ (b_latitude b = None \/ b_longitude b = None
       \/ present (b_requestType b) = None
       \/ (exists c, b_latitude b = Some c /\ truthy c = false)
       \/ (exists c, b_longitude b = Some c /\ truthy c = false)))
  \/
  (createServiceRequest truthy coordinate_json toLowerCase now b st
   = (failure 400 "Invalid requestType value", st)
   /\ exists t, present (b_requestType b) = Some t
                /\ ~ In t ALLOWED_REQUEST_TYPES)
  \/
  exists lat lon t,
    b_latitude b = Some lat /\ truthy lat = true /\
    b_longitude b = Some lon /\ truthy lon = true /\
    b_requestType b = Some t /\ In t ALLOWED_REQUEST_TYPES /\
    let data := Row (next_id st) lat lon
                    (option_map toLowerCase (b_city b))
                    (option_map toLowerCase (b_state b)) t now in
    createServiceRequest truthy coordinate_json toLowerCase now b st
    = (Response 201
         (Json.Obj [("message", Json.Str "Service request created");
                    ("data", row_json coordinate_json data)]%string),
       Store (service_request st ++ [data]) (next_id st + 1)).
Proof.
  unfold createServiceRequest.
  destruct (b_latitude b) as [lat|] eqn:E1; [|left; split; auto].
  destruct (b_longitude b) as [lon|] eqn:E2; [|left; split; auto].
  destruct (present (b_requestType b)) as [t|] eqn:E3; [|left; split; auto].
  destruct (truthy lat) eqn:T1;
    [|left; split; [reflexivity|]; right; right; right; left; eauto].
  destruct (truthy lon) eqn:T2;
    [|left; split; [reflexivity|]; right; right; right; right; eauto].
  cbn [negb orb].
  destruct (includes ALLOWED_REQUEST_TYPES t) eqn:Ht; cbn [negb].
  - right. right. exists lat, lon, t.
    assert (Ht' : b_requestType b = Some t).
    { revert E3. unfold present.
      destruct (b_requestType b) as [[|c s]|]; intros E3; congruence. }
    unfold includes in Ht. apply existsb_exists in Ht.
    destruct Ht as (x & Hx & Hxt). apply String.eqb_eq in Hxt. subst x.
    repeat split; assumption.
  - right. left. split; [reflexivity|]. exists t. split; [reflexivity|].
    intros Hin. unfold includes in Ht.
    assert (existsb (String.eqb t) ALLOWED_REQUEST_TYPES = true)
      by (apply existsb_exists; exists t; split;
          [exact Hin | apply String.eqb_refl]).
    congruence.
Qed.

(** X20. A service request whose latitude or longitude is absent or falsy
    is answered 400 and not stored, whatever else it carries; since [0] is
    falsy in JavaScript, a numeric coordinate [0] counts as missing. *)
Theorem createServiceRequest_rejects_falsy_coordinate :
  forall now b st,
    (forall c, b_latitude b = Some c -> truthy c = false)
    \/ (forall c, b_longitude b = Some c -> truthy c = false) ->
    createServiceRequest truthy coordinate_json toLowerCase now b st
    = (failure 400 "latitude, longitude, and requestType are required", st).
Proof.
  intros now b st H. unfold createServiceRequest.
  destruct (b_latitude b) as [lat|] eqn:E1; [|reflexivity].
  destruct (b_longitude b) as [lon|] eqn:E2; [|reflexivity].
  destruct (present (b_requestType b)); [|reflexivity].
  destruct H as [H|H].
  - rewrite (H lat eq_refl). reflexivity.
  - rewrite (H lon eq_refl), orb_true_r. reflexivity.
Qed.

Lemma post_keeps_stored_ok (now : Z) (b : body coordinate)
    (st : store coordinate) :
  stored_ok st ->
  stored_ok
    (snd (createServiceRequest truthy coordinate_json toLowerCase now b st)).
Proof.
  intros [Hnd Hall].
  destruct (post_cases now b st) as [[-> _]|[[-> _]|R]];
    [split; assumption | split; assumption |].
  destruct R as (lat & lon & t & _ & _ & _ & _ & _ & Ht & ->).
  unfold stored_ok. cbn [snd service_request next_id].
  rewrite Forall_forall in Hall. split.
  - rewrite map_app. apply NoDup_app; [exact Hnd | repeat constructor; auto |].
    intros k Hk [<-|[]]. apply in_map_iff in Hk.
    destruct Hk as (r & E & Hr). destruct (Hall r Hr) as [Hlt _].
    cbn [id] in E. lia.
  - apply Forall_app. split.
    + apply Forall_forall. intros r Hr. destruct (Hall r Hr) as [Hlt Hty].
      split; [lia | exact Hty].
    + constructor; [|constructor]. cbn [id request_type].
      split; [lia | exact Ht].
Qed.

(** X21. Whatever bodies are posted, the stored service requests keep
    pairwise distinct ids below the identity sequence, and every stored
    request has one of the two allowed types. *)
Theorem posted_keeps_stored_ok :
  forall bs st,
    stored_ok st ->
    stored_ok (posted truthy coordinate_json toLowerCase bs st).
Proof.
  induction bs as [|[now b] bs IH]; intros st Hst; cbn [posted];
    [exact Hst|].
  apply IH, post_keeps_stored_ok, Hst.
Qed.

(** X22. A stored service request is found again: after a [POST] answered
    201, a [GET] lists the new record (with the id the store gave it and the
    posted coordinates and type) whenever its [city] filter is absent or
    equals the posted city up to [toLowerCase], and its [requestType]
    filter is absent or equals the posted type. *)
Theorem created_request_is_listed :
  forall now b st q,
    code (fst (createServiceRequest truthy coordinate_json toLowerCase
                                    now b st)) = 201 ->
    (forall c, present (q_city q) = Some c ->
               exists c0, b_city b = Some c0
                          /\ toLowerCase c0 = toLowerCase c) ->
    (forall t, present (q_requestType q) = Some t ->
               b_requestType b = Some t) ->
    exists r,
      In r (found toLowerCase q
              (snd (createServiceRequest truthy coordinate_json toLowerCase
                                         now b st))) /\
      id r = next_id st /\
      b_latitude b = Some (latitude r) /\
      b_longitude b = Some (longitude r) /\
      b_requestType b = Some (request_type r) /\
      city r = option_map toLowerCase (b_city b) /\
      created_at r = now.
Proof.
  intros now b st q Hcode Hcity Htype.
  destruct (post_cases now b st) as [[E _]|[[E _]|R]];
    try (rewrite E in Hcode; discriminate Hcode).
  destruct R as (lat & lon & t & E1 & _ & E2 & _ & E3 & _ & E).
  cbv zeta in E. rewrite E. cbn [snd].
  exists (Row (next_id st) lat lon (option_map toLowerCase (b_city b))
              (option_map toLowerCase (b_state b)) t now).
  split; [|repeat split; assumption].
  unfold found. apply desc_In. cbn [service_request].
  apply filter_In. split; [apply in_or_app; right; left; reflexivity|].
  unfold where_. cbn [city request_type].
  apply andb_true_intro. split.
  - destruct (present (q_city q)) as [c|] eqn:Hc; [|reflexivity].
    destruct (Hcity c eq_refl) as (c0 & -> & Hlow). cbn [option_map].
    rewrite Hlow. apply String.eqb_refl.
  - destruct (present (q_requestType q)) as [t'|] eqn:Ht; [|reflexivity].
    specialize (Htype t' eq_refl). rewrite E3 in Htype.
    injection Htype as ->. apply String.eqb_refl.
Qed.


End ServiceRequests.

(* ------------------------------------------------------------------ *)
(** ** Further theorems at concrete stores *)

Section MoreInstances.
Import Prisma Controller Plan Routes.

Lemma store_two_primary_key : primary_key Examples.store_two.
Proof.
  split.
  - cbn. repeat constructor; cbn; intuition discriminate.
  - repeat constructor; cbn; lia.
Qed.

Lemma create_appends_only_witness :
  exists new,
    shift_assignments
      (snd (createShiftAssignments 0 (Examples.request 1 [7] 10 (Some 30))
                                   Examples.store_closed))
    = shift_assignments Examples.store_closed ++ new /\
    snd (createShiftAssignments 0 (Examples.request 1 [7] 10 (Some 30))
                                Examples.store_closed)
    = Examples.store_closed.
Proof.
  destruct (create_appends_only 0 (Examples.request 1 [7] 10 (Some 30))
              Examples.store_closed) as (_ & new & H1 & _ & _ & H4).
  exists new. split; [exact H1|]. apply H4. discriminate.
Defined.

Lemma create_rejects_inverted_range_witness :
  code (fst (createShiftAssignments 0 (Examples.request 2 [8] 40 (Some 35))
                                    Examples.store_closed)) = 400 /\
  snd (createShiftAssignments 0 (Examples.request 2 [8] 40 (Some 35))
                              Examples.store_closed)
  = Examples.store_closed.
Proof.
  apply (create_rejects_inverted_range 0 (Examples.request 2 [8] 40 (Some 35))
           Examples.store_closed 40 35);
    [reflexivity | reflexivity | apply Z.ltb_lt; reflexivity].
Defined.

Lemma create_only_on_live_shift_witness :
  exists sh ids,
    In sh (shifts Examples.store_closed) /\
    ShiftRow.deleted_at sh = None /\
    ShiftRow.id sh = 2 /\
    In 8 ids.
Proof.
  destruct (create_only_on_live_shift 0
              (Examples.request 2 [8] 40 (Some 50)) Examples.store_closed
              (Examples.assignment 2 2 8 40 (Some 50) "active"))
    as (sh & ids & H1 & H2 & _ & _ & H5 & _ & H7 & _).
  - right. left. reflexivity.
  - intros [H|[]]. discriminate H.
  - exists sh, ids. repeat split; try assumption. symmetry. exact H5.
Defined.

Lemma serve_keeps_ranges_ok_witness :
  ranges_ok
    (serve [Post 0 (Examples.request 2 [8] 40 (Some 50));
            Put (Some 1) (Examples.extend_to 5);
            Patch (Some 2);
            Delete 9 (Some 1)]
           Examples.store_two).
Proof.
  apply serve_keeps_ranges_ok.
  repeat constructor; unfold range_ok; cbn; lia.
Defined.

Lemma serve_keeps_primary_key_witness :
  primary_key
    (serve [Post 0 (Examples.request 2 [8] 40 (Some 50));
            Put (Some 1) (Examples.extend_to 5);
            Patch (Some 2);
            Delete 9 (Some 1)]
           Examples.store_two).
Proof.
  apply serve_keeps_primary_key. apply store_two_primary_key.
Defined.

Lemma serve_keeps_deleted_witness :
  let d0 := serve [Delete 9 (Some 1)] Examples.store_two in
  exists x,
    nth_error (shift_assignments d0) 0 = Some x /\
    Row.deleted_at x = Some 9 /\
    nth_error
      (shift_assignments
         (serve [Patch (Some 1);
                 Put (Some 1) (Examples.extend_to 50);
                 Delete 11 (Some 1);
                 Post 0 (Examples.request 1 [7] 40 (Some 50))]
                d0)) 0
    = Some x.
Proof.
  cbv zeta. eexists. split; [reflexivity|]. split; [reflexivity|].
  apply serve_keeps_deleted.
  - apply serve_keeps_primary_key. apply store_two_primary_key.
  - reflexivity.
  - discriminate.
Defined.

Lemma empty_update_changes_nothing_witness :
  snd (updateShiftAssignment (Some 1) empty_body Examples.store_two)
  = Examples.store_two.
Proof.
  apply empty_update_changes_nothing. apply store_two_primary_key.
Defined.

Lemma created_row_clear_of_existing_witness :
  Row.shiftId Examples.closed <> 2 /\
  detector_overlaps (Examples.assignment 2 2 7 40 (Some 50) "active")
                    Examples.closed = false.
Proof.
  destruct (created_row_clear_of_existing 0
              (Examples.request 2 [7] 40 (Some 50)) Examples.store_closed
              (Examples.assignment 2 2 7 40 (Some 50) "active")
              Examples.closed) as (H1 & H2 & _).
  - right. left. reflexivity.
  - intros [H|[]]. discriminate H.
  - left. reflexivity.
  - reflexivity.
  - reflexivity.
  - split; assumption.
Defined.

Lemma updated_row_clear_of_others_witness :
  detector_overlaps (Examples.assignment 1 1 7 1 (Some 5) "active")
                    (Examples.assignment 2 2 7 10 None "active") = false.
Proof.
  apply (updated_row_clear_of_others 1 (Examples.extend_to 5)
           Examples.store_two
           (Examples.assignment 1 1 7 1 (Some 5) "active")
           (Examples.assignment 2 2 7 10 None "active")).
  - reflexivity.
  - reflexivity.
  - right. left. reflexivity.
  - discriminate.
  - reflexivity.
  - reflexivity.
Defined.

Lemma deleted_id_is_unknown_witness :
  let d1 := snd (deleteShiftAssignment 9 (Some 1) Examples.store_closed) in
  updateShiftAssignment (Some 1) (Examples.extend_to 50) d1 = (not_found, d1)
  /\ toggleShiftAssignmentStatus (Some 1) d1 = (not_found, d1).
Proof.
  destruct (deleted_id_is_unknown 9 1 Examples.store_closed Examples.closed
              eq_refl) as (_ & H1 & H2).
  split; [apply H1 | exact H2].
Defined.

Lemma listing_after_create_witness :
  exists new,
    shift_assignments
      (snd (createShiftAssignments 0 (Examples.request 2 [8] 40 (Some 50))
                                   Examples.store_closed))
    = shift_assignments Examples.store_closed ++ new /\
    forall r, In r new -> Row.shiftId r = 2.
Proof.
  destruct (listing_after_create 0 (Examples.request 2 [8] 40 (Some 50))
              Examples.store_closed) as (new & H1 & H2 & _).
  exists new. split; [exact H1|]. intros r Hr.
  specialize (H2 r Hr). injection H2 as H2. symmetry. exact H2.
Defined.

End MoreInstances.

Section PagingInstances.
Import Pagination.

Lemma paginateWithPrisma_pages_cover_witness :
  List.concat
    (map (fun k => fst (paginateWithPrisma [50; 40; 30; 20; 10]
                          (fun _ => true) (fun l => l) (fun x : Z => x)
                          (Some (Z.of_nat k)) (Some 2)))
         (seq 1 3))
  = [50; 40; 30; 20; 10].
Proof.
  destruct (paginateWithPrisma_pages_cover Z Z [50; 40; 30; 20; 10]
              (fun _ => true) (fun l => l) (fun x => x) 2 3) as [_ H].
  - intros l. reflexivity.
  - lia.
  - reflexivity.
  - exact H.
Defined.

Lemma paginateWithPrisma_over_limit_overlaps_witness :
  let table := map Z.of_nat (seq 0 150) in
  nth_error (fst (paginateWithPrisma table (fun _ => true) (fun l => l)
                    (fun x : Z => x) (Some 2) (Some 120))) 0
  = nth_error (fst (paginateWithPrisma table (fun _ => true) (fun l => l)
                      (fun x : Z => x) (Some 1) (Some 120))) 100
  /\ nth_error (fst (paginateWithPrisma table (fun _ => true) (fun l => l)
                       (fun x : Z => x) (Some 1) (Some 120))) 100
     = Some 100.
Proof.
  cbv zeta.
  destruct (paginateWithPrisma_over_limit_overlaps Z Z
              (map Z.of_nat (seq 0 150)) (fun _ => true) (fun l => l)
              (fun x => x) 1 120) as (_ & H1 & H2).
  - lia.
  - lia.
  - split; [exact H1|]. rewrite H2. reflexivity.
Defined.

End PagingInstances.

Section ServiceInstances.

Local Abbreviation sent := body.

Import ServiceRequest ServiceExamples.

Lemma createServiceRequest_rejects_falsy_coordinate_witness :
  createServiceRequest nonzero Json.Num lower 7 on_equator no_requests
  = (failure 400 "latitude, longitude, and requestType are required",
     no_requests).
Proof.
  apply createServiceRequest_rejects_falsy_coordinate.
  left. intros c [= <-]. reflexivity.
Defined.

Lemma posted_keeps_stored_ok_witness :
  stored_ok (posted nonzero Json.Num lower
                    [(7, pune); (8, on_equator); (9, pune)] no_requests).
Proof.
  apply posted_keeps_stored_ok. split; constructor.
Defined.

Lemma created_request_is_listed_witness :
  exists r,
    In r (found lower (Query (Some "PUNE"%string) None)
            (snd (createServiceRequest nonzero Json.Num lower 7 pune
                                       no_requests))) /\
    id r = 1 /\ city r = Some "pune"%string.
Proof.
  destruct (created_request_is_listed Z nonzero Json.Num lower 7 pune
              no_requests (Query (Some "PUNE"%string) None))
    as (r & H1 & H2 & _ & _ & _ & H6 & _).
  - reflexivity.
  - intros c [= <-]. exists "Pune"%string. split; reflexivity.
  - intros t [=].
  - exists r. repeat split; assumption.
Defined.


End ServiceInstances.

(* ------------------------------------------------------------------ *)
(** ** The batch planner against sections 4.1 to 4.3 *)

Section PlannerSpec.
Import Prisma Controller Plan PlanSpec Routes.

(** Away from the missed case, the query reports exactly the workers that
    section 4.2 calls overlapping. *)
Lemma overlapping_agrees (d : db) (s : Z) (e : option Z) (ids : list Z)
    (w : Z) :
  end_before_start e s = false ->
  no_later_open_ended d s e ids ->
  In w ids ->
  is_overlapping d s e w = overlapping_spec d s e w.
Proof.
  intros Hr Hq Hw. unfold is_overlapping, overlapping_spec.
  apply existsb_pointwise. intros a Ha.
  unfold overlaps_with, overlaps_spec.
  destruct (Z.eqb_spec (Row.user_id a) w) as [E|N]; [|reflexivity].
  destruct (live a) eqn:Hl; [|reflexivity]. cbn [andb].
  apply overlap_where_agrees.
  - unfold TimeRange.valid. cbn [TimeRange.end_ TimeRange.start].
    unfold end_before_start in Hr. destruct e as [x|]; [|exact I].
    apply Z.ltb_ge. exact Hr.
  - apply Hq; [exact Ha | exact Hl | rewrite E; exact Hw].
Qed.

Lemma blocked_agrees (d : db) (shiftId s : Z) (e : option Z) (ids : list Z)
    (w : Z) :
  end_before_start e s = false ->
  no_later_open_ended d s e ids ->
  In w ids ->
  is_blocked d shiftId s e w = blocked_spec d shiftId s e w.
Proof.
  intros Hr Hq Hw. unfold is_blocked, blocked_spec.
  rewrite (overlapping_agrees d s e ids w Hr Hq Hw). reflexivity.
Qed.




(** C10. Two batch requests that assign worker 7 to mutually overlapping
    ranges on different shifts can both succeed: on a store without
    assignments, A = [[10, unbounded)] on shift 1 handled first and then
    B = [[5, 20]] on shift 2 are both answered 201 and both rows are stored
    active; handled in the other order, the second is rejected. *)
Theorem overlapping_batches_both_succeed :
  let A := Examples.request 1 [7] 10 None in
  let B := Examples.request 2 [7] 5 (Some 20) in
  let d0 := Examples.store_empty in
  let d1 := snd (createShiftAssignments 0 A d0) in
  let d2 := snd (createShiftAssignments 0 B d1) in
  code (fst (createShiftAssignments 0 A d0)) = 201 /\
  code (fst (createShiftAssignments 0 B d1)) = 201 /\
  serve [Post 0 A; Post 0 B] d0 = d2 /\
  shift_assignments d2
  = [Examples.assignment 1 1 7 10 None "active";
     Examples.assignment 2 2 7 5 (Some 20) "active"] /\
  TimeRange.overlaps (TimeRange.Make 10 None) (TimeRange.Make 5 (Some 20))
  = true /\
  TimeRange.overlaps (TimeRange.Make 5 (Some 20)) (TimeRange.Make 10 None)
  = true /\
  code (fst (createShiftAssignments 0 A
               (snd (createShiftAssignments 0 B d0)))) = 400 /\
  snd (createShiftAssignments 0 A (snd (createShiftAssignments 0 B d0)))
  = snd (createShiftAssignments 0 B d0).
Proof.
  cbv zeta. repeat split.
Qed.

End PlannerSpec.
